(** * dissect.target.container: the container base class and the [open] dispatcher

    A shallow embedding of [dissect/target/container.py].  Python values,
    exceptions and classes are modelled by inductive types; the code of
    [Container.detect] and of [open] is written in a small state-and-exception
    monad whose state is the outside world (streams, the file system, the import
    machinery) together with a record of the calls the code makes. *)

From Stdlib Require Import String List ZArith Bool.
From Stdlib Require DecimalString DecimalZ.
Import ListNotations.
Open Scope string_scope.

Set Warnings "-register-all".

(** ** Python values *)

(** The objects [open] and [Container.detect] receive:
    [Union[list, str, BinaryIO, Path]]. *)
Inductive value : Type :=
| VStr (s : string)          (* a [str] *)
| VPath (p : string)         (* [pathlib.Path(p)] *)
| VStream (h : nat)          (* a binary stream; [h] tells streams apart *)
| VList (l : list value).    (* a [list] *)

(** [isinstance(v, list)] *)
Definition isinstance_list (v : value) : bool :=
  match v with VList _ => true | _ => false end.

(** [isinstance(v, str)] *)
Definition isinstance_str (v : value) : bool :=
  match v with VStr _ => true | _ => false end.

(** [hasattr(v, "read")]: of the four kinds of object only a stream has a
    [read] attribute. *)
Definition hasattr_read (v : value) : bool :=
  match v with VStream _ => true | _ => false end.

(** [Path(entry)] for a [str] entry. *)
Definition Path (entry : value) : value :=
  match entry with VStr s => VPath s | _ => entry end.

(** ** Exceptions *)

Inductive exn : Type :=
| ImportError (msg : string)
| ModuleNotFoundError (msg : string)      (* a subclass of [ImportError] *)
| IndexError (msg : string)
| NotImplementedError
| Exception (name msg : string)           (* any other class deriving from [Exception] *)
| BaseException (name : string)           (* [KeyboardInterrupt], [SystemExit], ...: not an [Exception] *)
| ContainerError (message : string) (cause : option exn).

(** Does [except ImportError] catch [e]? *)
Definition isinstance_ImportError (e : exn) : bool :=
  match e with
  | ImportError _ | ModuleNotFoundError _ => true
  | _ => false
  end.

(** Does [except Exception] catch [e]? *)
Definition isinstance_Exception (e : exn) : bool :=
  match e with
  | BaseException _ => false
  | _ => true
  end.

(** ** Classes and instances *)

(** The base class and the eight container classes [open] knows. *)
Inductive pyclass : Type :=
| BaseContainer
| EwfContainer
| VmdkContainer
| VhdxContainer
| VhdContainer
| QCow2Container
| VdiContainer
| SplitContainer
| RawContainer.

Definition pyclass_eqb (a b : pyclass) : bool :=
  match a, b with
  | BaseContainer, BaseContainer
  | EwfContainer, EwfContainer
  | VmdkContainer, VmdkContainer
  | VhdxContainer, VhdxContainer
  | VhdContainer, VhdContainer
  | QCow2Container, QCow2Container
  | VdiContainer, VdiContainer
  | SplitContainer, SplitContainer
  | RawContainer, RawContainer => true
  | _, _ => false
  end.

(** What [Container.__init__] stores in an instance. *)
Record instance : Type := {
  cls : pyclass;
  fh : value;
  size : Z;
  vs : option nat            (* the volume system, when set *)
}.

(** ** Effects *)

Inductive result (A : Type) : Type :=
| Ok (a : A)
| Raise (e : exn).
Arguments Ok {A} a.
Arguments Raise {A} e.

(** The calls the code makes, in the order it makes them. *)
Inductive event : Type :=
| Getattr_detect (container : pyclass)                       (* [container.detect] is looked up *)
| Call_detect (c : pyclass) (item : value)                   (* [c.detect(item)] *)
| Call_detect_fh (c : pyclass) (fh original : value)         (* [c.detect_fh(fh, original)] *)
| Call_detect_path (c : pyclass) (path original : value)     (* [c.detect_path(path, original)] *)
| Call_init (c : pyclass) (item : value)
            (args : list value) (kwargs : list (string * value))   (* [c(item, *args, **kwargs)] *)
| Log_warning (msg : string) (container : pyclass) (exc_info : exn).   (* [log.warning(msg, container, exc_info=e)] *)

(** The class an event concerns. *)
Definition event_class (ev : event) : pyclass :=
  match ev with
  | Getattr_detect c | Call_detect c _ | Call_detect_fh c _ _
  | Call_detect_path c _ _ | Call_init c _ _ _ | Log_warning _ c _ => c
  end.


Definition is_call_detect (ev : event) : bool :=
  match ev with Call_detect _ _ => true | _ => false end.

(** The parts of the program that live outside [container.py], over a world
    of type [World]: each may read and change the world, and may raise.

    - [getattr_detect c]: the classes are reached through [import_lazy]
      (declared in [dissect.target.helpers.lazy]), so looking up
      [container.detect] is what imports the module of [c]; it raises when the
      module cannot be imported.
    - [sub_detect_fh c], [sub_detect_path c]: the overrides of [detect_fh] and
      [detect_path] in the concrete class [c].
    - [new c item args kwargs]: the constructor call [c(item, *args, **kwargs)].
    - [format v]: the text [v] contributes to an f-string. *)
Record environment (World : Type) : Type := {
  getattr_detect : pyclass -> World -> result unit * World;
  sub_detect_fh : pyclass -> value -> value -> World -> result bool * World;
  sub_detect_path : pyclass -> value -> value -> World -> result bool * World;
  new : pyclass -> value -> list value -> list (string * value) ->
        World -> result instance * World;
  format : value -> string
}.
Arguments getattr_detect {World} _ _ _.
Arguments sub_detect_fh {World} _ _ _ _ _.
Arguments sub_detect_path {World} _ _ _ _ _.
Arguments new {World} _ _ _ _ _ _.
Arguments format {World} _ _.

Record state (World : Type) : Type := {
  world : World;
  trace : list event
}.
Arguments world {World} _.
Arguments trace {World} _.

(** Computations that may change the state and may raise. *)
Definition M (World A : Type) : Type := state World -> result A * state World.

Section Monad.
Context {World : Type}.

Definition ret {A} (a : A) : M World A := fun st => (Ok a, st).

Definition raise {A} (e : exn) : M World A := fun st => (Raise e, st).

Definition bind {A B} (m : M World A) (f : A -> M World B) : M World B :=
  fun st =>
    match m st with
    | (Ok a, st') => f a st'
    | (Raise e, st') => (Raise e, st')
    end.

(** [try: m  except ... as e: handler e] *)
Definition try_except {A} (m : M World A) (handler : exn -> M World A) : M World A :=
  fun st =>
    match m st with
    | (Ok a, st') => (Ok a, st')
    | (Raise e, st') => handler e st'
    end.

(** Add an event to the record of calls. *)
Definition record (ev : event) (st : state World) : state World :=
  {| world := world st; trace := trace st ++ [ev] |}.

Definition emit (ev : event) : M World unit := fun st => (Ok tt, record ev st).

(** Run a part of the environment on the world. *)
Definition lift {A} (f : World -> result A * World) : M World A :=
  fun st =>
    let (r, w) := f (world st) in
    (r, {| world := w; trace := trace st |}).
End Monad.

Declare Scope py_scope.
Delimit Scope py_scope with py.
Notation "x <- m ;; k" := (bind m (fun x => k))
  (at level 61, m at next level, right associativity) : py_scope.
Notation "m ;;; k" := (bind m (fun _ => k))
  (at level 61, right associativity) : py_scope.
Open Scope py_scope.

(** ** class Container *)

Module Container.
Section Methods.
Context {World : Type} (E : environment World).

(** [def __init__(self, fh, size, vs=None)] *)
Definition __init__ (c : pyclass) (fh : value) (size : Z) (vs : option nat) : instance :=
  {| cls := c; fh := fh; size := size; vs := vs |}.

(** [detect_fh]: the base class raises [NotImplementedError], a concrete
    class runs its override. *)
Definition detect_fh (c : pyclass) (fh original : value) : M World bool :=
  emit (Call_detect_fh c fh original) ;;;
  match c with
  | BaseContainer => raise NotImplementedError
  | _ => lift (sub_detect_fh E c fh original)
  end.

(** [detect_path]: as [detect_fh]. *)
Definition detect_path (c : pyclass) (path original : value) : M World bool :=
  emit (Call_detect_path c path original) ;;;
  match c with
  | BaseContainer => raise NotImplementedError
  | _ => lift (sub_detect_path E c path original)
  end.

(** [item[0]] on a list. *)
Definition getitem0 (l : list value) : M World value :=
  match l with
  | x :: _ => ret x
  | [] => raise (IndexError "list index out of range")
  end.

(** [[
    i = item[0] if isinstance(item, list) else item
    if hasattr(i, "read"):
        return cls.detect_fh(i, item)
    else:
        return cls.detect_path(i, item)
    ]] *)
Definition detect (c : pyclass) (item : value) : M World bool :=
  emit (Call_detect c item) ;;;
  i <- match item with
       | VList l => getitem0 l
       | _ => ret item
       end ;;
  if hasattr_read i then detect_fh c i item else detect_path c i item.

(** [def seekable(self): return True] *)
Definition seekable (self : instance) : bool := true.

(** [self.__class__.__name__] *)
Definition __name__ (c : pyclass) : string :=
  match c with
  | BaseContainer => "Container"
  | EwfContainer => "EwfContainer"
  | VmdkContainer => "VmdkContainer"
  | VhdxContainer => "VhdxContainer"
  | VhdContainer => "VhdContainer"
  | QCow2Container => "QCow2Container"
  | VdiContainer => "VdiContainer"
  | SplitContainer => "SplitContainer"
  | RawContainer => "RawContainer"
  end.

(** An [int] in an f-string: decimal digits, with a minus sign when negative. *)
Definition str_int (z : Z) : string :=
  DecimalString.NilEmpty.string_of_int (Z.to_int z).

(** [def __repr__(self): return f"<{self.__class__.__name__} size={self.size} vs={self.vs}>"];
    [str_vs] prints a volume system. *)
Definition __repr__ (str_vs : nat -> string) (self : instance) : string :=
  "<" ++ __name__ (cls self) ++ " size=" ++ str_int (size self) ++ " vs=" ++
  match vs self with
  | None => "None"
  | Some v => str_vs v
  end ++ ">".
End Methods.
End Container.

(** ** open *)

Section Open.
Context {World : Type} (E : environment World).

(** The list [open] builds, in its order. *)
Definition containers : list pyclass :=
  [ EwfContainer; VmdkContainer; VhdxContainer; VhdContainer;
    QCow2Container; VdiContainer; SplitContainer; RawContainer ].

(** [[
    if isinstance(item, list):
        item = [Path(entry) if isinstance(entry, str) else entry for entry in item]
    elif isinstance(item, str):
        item = Path(item)
    ]] *)
Definition normalize (item : value) : value :=
  match item with
  | VList l => VList (map (fun entry => if isinstance_str entry then Path entry else entry) l)
  | VStr _ => Path item
  | _ => item
  end.

(** The expression [container.detect(item)]: the attribute is looked up,
    then called. *)
Definition call_detect (container : pyclass) (item : value) : M World bool :=
  emit (Getattr_detect container) ;;;
  lift (getattr_detect E container) ;;;
  Container.detect E container item.

(** The expression [container(item, *args, **kwargs)]. *)
Definition instantiate (container : pyclass) (item : value)
           (args : list value) (kwargs : list (string * value)) : M World instance :=
  emit (Call_init container item args kwargs) ;;;
  lift (new E container item args kwargs).

Definition log_warning (container : pyclass) (e : exn) : M World unit :=
  emit (Log_warning "Failed to import %s" container e).

(** One turn of the loop; [Some c] stands for [return c], [None] for going
    on to the next container.
    [[
    try:
        if container.detect(item):
            return container(item, *args, **kwargs)
    except ImportError as e:
        log.warning("Failed to import %s", container, exc_info=e)
    except Exception as e:
        raise ContainerError(f"Failed to open container {item}", cause=e)
    ]] *)
Definition attempt (container : pyclass) (item : value)
           (args : list value) (kwargs : list (string * value)) : M World (option instance) :=
  try_except
    (b <- call_detect container item ;;
     if b then (c <- instantiate container item args kwargs ;; ret (Some c))
     else ret None)
    (fun e =>
       if isinstance_ImportError e then
         log_warning container e ;;; ret None
       else if isinstance_Exception e then
         raise (ContainerError ("Failed to open container " ++ format E item) (Some e))
       else raise e).

(** [[
    for container in containers:
        ...
    raise ContainerError(f"Failed to detect container for {item}")
    ]] *)
Fixpoint for_containers (cs : list pyclass) (item : value)
         (args : list value) (kwargs : list (string * value)) : M World instance :=
  match cs with
  | [] => raise (ContainerError ("Failed to detect container for " ++ format E item) None)
  | container :: rest =>
      r <- attempt container item args kwargs ;;
      match r with
      | Some c => ret c
      | None => for_containers rest item args kwargs
      end
  end.

(** [def open(item, *args, **kwargs)] *)
Definition open (item : value) (args : list value) (kwargs : list (string * value))
  : M World instance :=
  for_containers containers (normalize item) args kwargs.
End Open.

(** ** What one turn of the loop can do *)

Section Runs.
Context {World : Type} (E : environment World).
Variables (item : value) (args : list value) (kwargs : list (string * value)).

(** The exception that leaves the [try] statement when [e], which is not an
    [ImportError], is raised inside it. *)
Definition escaping (e : exn) : exn :=
  if isinstance_Exception e
  then ContainerError ("Failed to open container " ++ format E item) (Some e)
  else e.

(** The state after the warning for [container] has been logged. *)
Definition warned (container : pyclass) (e : exn) (st : state World) : state World :=
  record (Log_warning "Failed to import %s" container e) st.

(** [container] is probed and does not match: its [detect] returns false, or
    the call [container.detect(item)] fails with an [ImportError]. *)
Inductive NoMatch (container : pyclass) (st st' : state World) : Prop :=
| NoMatch_false :
    call_detect E container item st = (Ok false, st') ->
    NoMatch container st st'
| NoMatch_import e st1 :
    call_detect E container item st = (Raise e, st1) ->
    isinstance_ImportError e = true ->
    st' = warned container e st1 ->
    NoMatch container st st'.

(** The loop goes on to the next container: no match, or a match whose
    constructor fails with an [ImportError]. *)
Inductive Declines (container : pyclass) (st st' : state World) : Prop :=
| Declines_no_match :
    NoMatch container st st' ->
    Declines container st st'
| Declines_import_new e st1 st2 :
    call_detect E container item st = (Ok true, st1) ->
    instantiate E container item args kwargs st1 = (Raise e, st2) ->
    isinstance_ImportError e = true ->
    st' = warned container e st2 ->
    Declines container st st'.

(** [container] matches and its constructor returns [c]. *)
Inductive Opens (container : pyclass) (st : state World) (c : instance)
          (st' : state World) : Prop :=
| Opens_intro st1 :
    call_detect E container item st = (Ok true, st1) ->
    instantiate E container item args kwargs st1 = (Ok c, st') ->
    Opens container st c st'.

(** [container] raises [e], which is not an [ImportError], from its [detect]
    or, after a match, from its constructor. *)
Inductive Fails (container : pyclass) (st : state World) (e : exn)
          (st' : state World) : Prop :=
| Fails_detect :
    call_detect E container item st = (Raise e, st') ->
    isinstance_ImportError e = false ->
    Fails container st e st'
| Fails_new st1 :
    call_detect E container item st = (Ok true, st1) ->
    instantiate E container item args kwargs st1 = (Raise e, st') ->
    isinstance_ImportError e = false ->
    Fails container st e st'.


(** A run of turns, one for each container of a list, each related by [R]. *)
Inductive Chain (R : pyclass -> state World -> state World -> Prop)
  : list pyclass -> state World -> state World -> Prop :=
| Chain_nil st : Chain R [] st st
| Chain_cons container cs st st1 st2 :
    R container st st1 ->
    Chain R cs st1 st2 ->
    Chain R (container :: cs) st st2.

(** An event [open] may record while it tries [container] on [item]. *)
Definition event_of (container : pyclass) (ev : event) : Prop :=
  match ev with
  | Getattr_detect c => c = container
  | Call_detect c i => c = container /\ i = item
  | Call_detect_fh c _ original => c = container /\ original = item
  | Call_detect_path c _ original => c = container /\ original = item
  | Call_init c i a kw => c = container /\ i = item /\ a = args /\ kw = kwargs
  | Log_warning msg c _ => c = container /\ msg = "Failed to import %s"
  end.
End Runs.

(** The class whose [detect] was called last. *)
Fixpoint last_detect (tr : list event) : option pyclass :=
  match tr with
  | [] => None
  | ev :: tr' =>
      match last_detect tr' with
      | Some c => Some c
      | None => match ev with Call_detect c _ => Some c | _ => None end
      end
  end.

(** [st'] has the record of [st] followed by events that all satisfy [P]. *)
Definition Extends {World : Type} (P : event -> Prop) (st st' : state World) : Prop :=
  exists evs, trace st' = (trace st ++ evs)%list /\ Forall P evs.

(** ** The shape of a run *)

(** [rep] is the representative [detect] takes for [item]:
    [item[0] if isinstance(item, list) else item]. *)
Definition Representative (item rep : value) : Prop :=
  (exists l, item = VList (rep :: l)) \/ (isinstance_list item = false /\ rep = item).

(** The one call [detect] of class [k] makes to [detect_fh] or [detect_path]
    for [item]. *)
Inductive Hook (item : value) (k : pyclass) : event -> Prop :=
| Hook_fh rep :
    Representative item rep -> hasattr_read rep = true ->
    Hook item k (Call_detect_fh k rep item)
| Hook_path rep :
    Representative item rep -> hasattr_read rep = false ->
    Hook item k (Call_detect_path k rep item).

(** How a turn of the loop may end: with nothing more, or with the warning
    for an [ImportError]. *)
Inductive Tail (k : pyclass) : list event -> Prop :=
| Tail_none : Tail k []
| Tail_warning e :
    isinstance_ImportError e = true ->
    Tail k [Log_warning "Failed to import %s" k e].

(** What one turn of the loop for container [k] records: the lookup of
    [k.detect]; then, if the module imports, the call of [detect]; then, unless
    the item is the empty list, one hook call; then, if [detect] returned
    true, the constructor call. *)
Inductive Turn (item : value) (args : list value) (kwargs : list (string * value))
          (k : pyclass) : list event -> Prop :=
| Turn_lookup tail :
    Tail k tail ->
    Turn item args kwargs k (Getattr_detect k :: tail)
| Turn_detect :
    item = VList [] ->
    Turn item args kwargs k [Getattr_detect k; Call_detect k item]
| Turn_hook h tail :
    Hook item k h -> Tail k tail ->
    Turn item args kwargs k (Getattr_detect k :: Call_detect k item :: h :: tail)
| Turn_init h tail :
    Hook item k h -> Tail k tail ->
    Turn item args kwargs k
         (Getattr_detect k :: Call_detect k item :: h ::
          Call_init k item args kwargs :: tail).

(** The classes whose [detect] attribute was looked up, in order. *)
Fixpoint probed (tr : list event) : list pyclass :=
  match tr with
  | [] => []
  | Getattr_detect c :: tr' => c :: probed tr'
  | _ :: tr' => probed tr'
  end.

(** The classes a warning was logged for, in order. *)
Fixpoint warned_classes (tr : list event) : list pyclass :=
  match tr with
  | [] => []
  | Log_warning _ c _ :: tr' => c :: warned_classes tr'
  | _ :: tr' => warned_classes tr'
  end.

(** Neither [v] nor, when [v] is a list, any of its entries is a [str]. *)
Definition no_str (v : value) : bool :=
  match v with
  | VStr _ => false
  | VList l => forallb (fun entry => negb (isinstance_str entry)) l
  | _ => true
  end.

(** ** Sample environments *)

(** [repr(v)] and [str(v)], as the samples print them. *)
Fixpoint repr (v : value) : string :=
  match v with
  | VStr s => "'" ++ s ++ "'"
  | VPath p => "PosixPath('" ++ p ++ "')"
  | VStream _ => "<_io.BytesIO object>"
  | VList l =>
      "[" ++ (fix elements (l : list value) : string :=
                match l with
                | [] => ""
                | [x] => repr x
                | x :: rest => repr x ++ ", " ++ elements rest
                end) l ++ "]"
  end.

Definition show (v : value) : string :=
  match v with
  | VStr s => s
  | VPath p => p
  | _ => repr v
  end.

(** A table of outcomes by class, with a default. *)
Fixpoint lookup {A : Type} (c : pyclass) (table : list (pyclass * A)) (default : A) : A :=
  match table with
  | [] => default
  | (c', a) :: rest => if pyclass_eqb c c' then a else lookup c rest default
  end.

(** A constructor that succeeds. *)
Definition builds (c : pyclass) (item : value) : result instance :=
  Ok (Container.__init__ c item 512 None).

(** An environment whose world counts the calls made to it.  [imports] lists
    the classes whose module fails to import, [detects] the outcome of
    [detect_fh] and [detect_path] for the classes that do not just return
    false, [constructs] the classes whose constructor raises. *)
Definition stub (imports : list (pyclass * exn))
           (detects : list (pyclass * result bool))
           (constructs : list (pyclass * exn)) : environment nat :=
  {| getattr_detect :=
       fun c w => (lookup c (map (fun '(c', e) => (c', Raise e)) imports) (Ok tt), S w);
     sub_detect_fh := fun c _ _ w => (lookup c detects (Ok false), S w);
     sub_detect_path := fun c _ _ w => (lookup c detects (Ok false), S w);
     new :=
       fun c item _ _ w =>
         (lookup c (map (fun '(c', e) => (c', Raise e)) constructs) (builds c item), S w);
     format := show |}.

Definition start : state nat := {| world := 0; trace := [] |}.

(** The EWF module cannot be imported; a VHDX image is recognised. *)
Definition env_vhdx : environment nat :=
  stub [(EwfContainer, ModuleNotFoundError "No module named 'dissect.evidence'")]
       [(VhdxContainer, Ok true); (RawContainer, Ok true)]
       [].

(** The EWF [detect] raises [ValueError]; the raw container would match. *)
Definition env_ewf_detect_raises : environment nat :=
  stub [] [(EwfContainer, Raise (Exception "ValueError" "bad header")); (RawContainer, Ok true)] [].

(** As before, with the failure in the VMDK [detect]. *)
Definition env_vmdk_detect_raises : environment nat :=
  stub [] [(VmdkContainer, Raise (Exception "ValueError" "bad header")); (RawContainer, Ok true)] [].

(** The EWF [detect] matches and its constructor raises [ValueError]. *)
Definition env_ewf_new_raises : environment nat :=
  stub [] [(EwfContainer, Ok true); (RawContainer, Ok true)]
       [(EwfContainer, Exception "ValueError" "corrupt segment")].

(** The EWF [detect] matches and its constructor raises [ImportError]. *)
Definition env_ewf_new_import_error : environment nat :=
  stub [] [(EwfContainer, Ok true); (RawContainer, Ok true)]
       [(EwfContainer, ImportError "cannot import name 'EWF'")].

(** No module can be imported. *)
Definition env_nothing_imports : environment nat :=
  stub (map (fun c => (c, ImportError "Failed to lazily import")) containers) [] [].

(** Every [detect] returns false. *)
Definition env_nothing_matches : environment nat := stub [] [] [].

(** The EWF [detect] is interrupted from the keyboard. *)
Definition env_interrupted : environment nat :=
  stub [] [(EwfContainer, Raise (BaseException "KeyboardInterrupt")); (RawContainer, Ok true)] [].

(** The EWF module cannot be imported; the VHDX [detect] matches and the VHDX
    constructor raises [ValueError]. *)
Definition env_vhdx_new_raises : environment nat :=
  stub [(EwfContainer, ModuleNotFoundError "No module named 'dissect.evidence'")]
       [(VhdxContainer, Ok true); (RawContainer, Ok true)]
       [(VhdxContainer, Exception "ValueError" "corrupt header")].

(** The EWF module cannot be imported; the VMDK [detect] raises [ValueError];
    the raw container would match. *)
Definition env_missing_then_vmdk_raises : environment nat :=
  stub [(EwfContainer, ModuleNotFoundError "No module named 'dissect.evidence'")]
       [(VmdkContainer, Raise (Exception "ValueError" "bad header")); (RawContainer, Ok true)]
       [].

(** * Properties *)

(** ** One turn of the loop *)

Section TurnFacts.
Context {World : Type} (E : environment World).
Variables (item : value) (args : list value) (kwargs : list (string * value)).

Lemma attempt_opens k st c st' :
  Opens E item args kwargs k st c st' ->
  attempt E k item args kwargs st = (Ok (Some c), st').
Proof.
  intros [st1 Hd Hn]. unfold attempt, try_except, bind.
  rewrite Hd, Hn. reflexivity.
Qed.

Lemma attempt_declines k st st' :
  Declines E item args kwargs k st st' ->
  attempt E k item args kwargs st = (Ok None, st').
Proof.
  intros [[Hd | e st1 Hd He ->] | e st1 st2 Hd Hn He ->];
    unfold attempt, try_except, bind.
  - rewrite Hd. reflexivity.
  - rewrite Hd, He. reflexivity.
  - rewrite Hd, Hn, He. reflexivity.
Qed.

Lemma attempt_fails k st e st' :
  Fails E item args kwargs k st e st' ->
  attempt E k item args kwargs st = (Raise (escaping E item e), st').
Proof.
  intros [Hd He | st1 Hd Hn He];
    unfold attempt, try_except, bind, escaping.
  - rewrite Hd, He. destruct (isinstance_Exception e); reflexivity.
  - rewrite Hd, Hn, He. destruct (isinstance_Exception e); reflexivity.
Qed.

(** The three cases above are all there are. *)
Lemma attempt_inv k st r st' :
  attempt E k item args kwargs st = (r, st') ->
  (exists c, r = Ok (Some c) /\ Opens E item args kwargs k st c st') \/
  (r = Ok None /\ Declines E item args kwargs k st st') \/
  (exists e, r = Raise (escaping E item e) /\ Fails E item args kwargs k st e st').
Proof.
  unfold attempt, try_except, bind, escaping.
  destruct (call_detect E k item st) as [[[|]|e] st1] eqn:Hd.
  - destruct (instantiate E k item args kwargs st1) as [[c|e] st2] eqn:Hn.
    + intros [= <- <-]. left. exists c. split; [reflexivity|]. econstructor; eassumption.
    + destruct (isinstance_ImportError e) eqn:He.
      * intros [= <- <-]. right; left. split; [reflexivity|].
        eapply Declines_import_new; eauto.
      * intros H. right; right. exists e.
        destruct (isinstance_Exception e); injection H as <- <-;
          (split; [reflexivity | eapply Fails_new; eauto]).
  - intros [= <- <-]. right; left. split; [reflexivity|].
    apply Declines_no_match, NoMatch_false. assumption.
  - destruct (isinstance_ImportError e) eqn:He.
    + intros [= <- <-]. right; left. split; [reflexivity|].
      apply Declines_no_match. eapply NoMatch_import; eauto.
    + intros H. right; right. exists e.
      destruct (isinstance_Exception e); injection H as <- <-;
        (split; [reflexivity | apply Fails_detect; assumption]).
Qed.
End TurnFacts.

(** ** The record of calls *)

Section TraceFacts.
Context {World : Type} (E : environment World).
Variables (item : value) (args : list value) (kwargs : list (string * value)).

Lemma Extends_refl (P : event -> Prop) (st : state World) : Extends P st st.
Proof. exists []. rewrite app_nil_r. split; [reflexivity | constructor]. Qed.

Lemma Extends_trans (P : event -> Prop) (st1 st2 st3 : state World) :
  Extends P st1 st2 -> Extends P st2 st3 -> Extends P st1 st3.
Proof.
  intros [e1 [H1 F1]] [e2 [H2 F2]]. exists (e1 ++ e2)%list. split.
  - rewrite H2, H1, app_assoc. reflexivity.
  - apply Forall_app. split; assumption.
Qed.

Lemma Extends_weaken (P Q : event -> Prop) (st st' : state World) :
  (forall ev, P ev -> Q ev) -> Extends P st st' -> Extends Q st st'.
Proof.
  intros HPQ [evs [H F]]. exists evs. split; [assumption|].
  eapply Forall_impl; eauto.
Qed.

Lemma Extends_record (P : event -> Prop) ev (st : state World) :
  P ev -> Extends P st (record ev st).
Proof. intros H. exists [ev]. split; [reflexivity | repeat constructor; assumption]. Qed.

Lemma Extends_lift (P : event -> Prop) (st : state World) w :
  Extends P st {| world := w; trace := trace st |}.
Proof. exists []. simpl. rewrite app_nil_r. split; [reflexivity | constructor]. Qed.

Lemma lift_extends {A} (P : event -> Prop) (f : World -> result A * World) st r st' :
  lift f st = (r, st') -> Extends P st st'.
Proof.
  unfold lift. destruct (f (world st)) as [r0 w]. intros [= _ <-]. apply Extends_lift.
Qed.

Lemma detect_fh_extends c fh0 st r st' :
  Container.detect_fh E c fh0 item st = (r, st') ->
  Extends (event_of item args kwargs c) st st'.
Proof.
  unfold Container.detect_fh, bind, emit. intros H.
  apply Extends_trans with (record (Call_detect_fh c fh0 item) st).
  - apply Extends_record. simpl. auto.
  - destruct c; try (eapply lift_extends; exact H).
    injection H as _ <-. apply Extends_refl.
Qed.

Lemma detect_path_extends c path st r st' :
  Container.detect_path E c path item st = (r, st') ->
  Extends (event_of item args kwargs c) st st'.
Proof.
  unfold Container.detect_path, bind, emit. intros H.
  apply Extends_trans with (record (Call_detect_path c path item) st).
  - apply Extends_record. simpl. auto.
  - destruct c; try (eapply lift_extends; exact H).
    injection H as _ <-. apply Extends_refl.
Qed.

Lemma detect_extends c st r st' :
  Container.detect E c item st = (r, st') ->
  Extends (event_of item args kwargs c) st st'.
Proof.
  unfold Container.detect. unfold bind at 1. unfold emit. intros H.
  apply Extends_trans with (record (Call_detect c item) st).
  { apply Extends_record. simpl. auto. }
  revert H. unfold bind.
  set (st0 := record (Call_detect c item) st).
  assert (Hdisp : forall i, (if hasattr_read i
                             then Container.detect_fh E c i item
                             else Container.detect_path E c i item) st0 = (r, st') ->
                            Extends (event_of item args kwargs c) st0 st').
  { intros i. destruct (hasattr_read i);
      [apply detect_fh_extends | apply detect_path_extends]. }
  destruct item as [s | p | h | [| x l]]; simpl.
  - apply (Hdisp (VStr s)).
  - apply (Hdisp (VPath p)).
  - apply (Hdisp (VStream h)).
  - intros [= _ <-]. apply Extends_refl.
  - apply (Hdisp x).
Qed.

Lemma call_detect_extends c st r st' :
  call_detect E c item st = (r, st') ->
  Extends (event_of item args kwargs c) st st'.
Proof.
  unfold call_detect. unfold bind at 1. unfold emit. intros H.
  apply Extends_trans with (record (Getattr_detect c) st).
  { apply Extends_record. reflexivity. }
  revert H. unfold bind.
  destruct (lift (getattr_detect E c) (record (Getattr_detect c) st))
    as [[[]|e] st1] eqn:Hl.
  - intros H. eapply Extends_trans; [eapply lift_extends; exact Hl |].
    eapply detect_extends; exact H.
  - intros [= _ <-]. eapply lift_extends; exact Hl.
Qed.

Lemma instantiate_extends c st r st' :
  instantiate E c item args kwargs st = (r, st') ->
  Extends (event_of item args kwargs c) st st'.
Proof.
  unfold instantiate, bind, emit. intros H.
  apply Extends_trans with (record (Call_init c item args kwargs) st).
  - apply Extends_record. simpl. auto.
  - eapply lift_extends; exact H.
Qed.

Lemma warned_extends c e (st : state World) :
  Extends (event_of item args kwargs c) st (warned c e st).
Proof. apply Extends_record. simpl. auto. Qed.

Lemma attempt_extends c st r st' :
  attempt E c item args kwargs st = (r, st') ->
  Extends (event_of item args kwargs c) st st'.
Proof.
  intros H. apply attempt_inv in H.
  destruct H as [[i [_ Hop]] | [[_ Hdec] | [e [_ Hf]]]].
  - destruct Hop as [st1 Hd Hn].
    eapply Extends_trans; [eapply call_detect_extends | eapply instantiate_extends]; eauto.
  - destruct Hdec as [[Hd | e st1 Hd He ->] | e st1 st2 Hd Hn He ->].
    + eapply call_detect_extends; eauto.
    + eapply Extends_trans; [eapply call_detect_extends; eauto | apply warned_extends].
    + eapply Extends_trans; [eapply call_detect_extends; eauto |].
      eapply Extends_trans; [eapply instantiate_extends; eauto | apply warned_extends].
  - destruct Hf as [Hd He | st1 Hd Hn He].
    + eapply call_detect_extends; eauto.
    + eapply Extends_trans; [eapply call_detect_extends | eapply instantiate_extends]; eauto.
Qed.
End TraceFacts.

(** ** The loop *)

Section LoopFacts.
Context {World : Type} (E : environment World).
Variables (item : value) (args : list value) (kwargs : list (string * value)).

Lemma Chain_weaken (R R' : pyclass -> state World -> state World -> Prop) cs st st' :
  (forall k s s', R k s s' -> R' k s s') -> Chain R cs st st' -> Chain R' cs st st'.
Proof.
  intros HR H. induction H; econstructor; eauto.
Qed.

Lemma NoMatch_Declines k (st st' : state World) :
  NoMatch E item k st st' -> Declines E item args kwargs k st st'.
Proof. apply Declines_no_match. Qed.

(** Containers that decline are passed over. *)
Lemma for_containers_skip pre rest st st1 :
  Chain (Declines E item args kwargs) pre st st1 ->
  for_containers E (pre ++ rest) item args kwargs st =
  for_containers E rest item args kwargs st1.
Proof.
  intros H. induction H as [st | k cs st st1 st2 Hk _ IH].
  - reflexivity.
  - simpl. unfold bind at 1.
    rewrite (attempt_declines E item args kwargs _ _ _ Hk). exact IH.
Qed.

Lemma Chain_extends pre st st1 :
  Chain (Declines E item args kwargs) pre st st1 ->
  Extends (fun ev => exists k, In k pre /\ event_of item args kwargs k ev) st st1.
Proof.
  intros H. induction H as [st | k cs st st1 st2 Hk _ IH].
  - apply Extends_refl.
  - eapply Extends_trans.
    + eapply Extends_weaken;
        [| eapply attempt_extends, attempt_declines; exact Hk].
      intros ev Hev. exists k. split; [left; reflexivity | exact Hev].
    + eapply Extends_weaken; [| exact IH].
      intros ev [k' [Hin Hev]]. exists k'. split; [right; exact Hin | exact Hev].
Qed.

(** Every run of the loop ends in one of three ways. *)
Lemma for_containers_inv cs st r st' :
  for_containers E cs item args kwargs st = (r, st') ->
  (exists pre k post st1 c,
      cs = (pre ++ k :: post)%list /\
      Chain (Declines E item args kwargs) pre st st1 /\
      Opens E item args kwargs k st1 c st' /\ r = Ok c) \/
  (exists pre k post st1 e,
      cs = (pre ++ k :: post)%list /\
      Chain (Declines E item args kwargs) pre st st1 /\
      Fails E item args kwargs k st1 e st' /\ r = Raise (escaping E item e)) \/
  (Chain (Declines E item args kwargs) cs st st' /\
   r = Raise (ContainerError ("Failed to detect container for " ++ format E item) None)).
Proof.
  revert st. induction cs as [| k cs IH]; intros st; simpl.
  - intros [= <- <-]. right; right. split; [constructor | reflexivity].
  - unfold bind at 1.
    destruct (attempt E k item args kwargs st) as [[[c|]|e] st1] eqn:Ha;
      apply attempt_inv in Ha;
      destruct Ha as [[c' [Hr Ho]] | [[Hr Hd] | [e' [Hr Hf]]]]; try discriminate.
    + injection Hr as <-. intros [= <- <-]. left.
      exists [], k, cs, st, c. repeat split; [constructor | assumption].
    + intros H. apply IH in H.
      destruct H as [(pre & k' & post & st2 & c & -> & Hc & Ho & ->)
                    | [(pre & k' & post & st2 & e & -> & Hc & Hf & ->) | [Hc ->]]].
      * left. exists (k :: pre), k', post, st2, c.
        repeat split; [econstructor; eauto | assumption].
      * right; left. exists (k :: pre), k', post, st2, e.
        repeat split; [econstructor; eauto | assumption].
      * right; right. split; [econstructor; eauto | reflexivity].
    + injection Hr as ->. intros [= <- <-]. right; left.
      exists [], k, cs, st, e'. repeat split; [constructor | assumption].
Qed.

(** Everything the loop records concerns one of its containers and carries
    the item and the extra arguments it was given. *)
Lemma for_containers_extends cs st r st' :
  for_containers E cs item args kwargs st = (r, st') ->
  Extends (fun ev => exists k, In k cs /\ event_of item args kwargs k ev) st st'.
Proof.
  revert st. induction cs as [| k cs IH]; intros st; simpl.
  - intros [= _ <-]. apply Extends_refl.
  - unfold bind at 1.
    destruct (attempt E k item args kwargs st) as [[[c|]|e] st1] eqn:Ha;
      apply attempt_extends in Ha;
      assert (Hk : Extends (fun ev => exists k', In k' (k :: cs) /\
                                      event_of item args kwargs k' ev) st st1)
        by (eapply Extends_weaken; [| exact Ha];
            intros ev Hev; exists k; split; [left; reflexivity | exact Hev]).
    + intros [= _ <-]. exact Hk.
    + intros H. apply IH in H. eapply Extends_trans; [exact Hk |].
      eapply Extends_weaken; [| exact H].
      intros ev [k' [Hin Hev]]. exists k'. split; [right; exact Hin | exact Hev].
    + intros [= _ <-]. exact Hk.
Qed.
End LoopFacts.

(** ** The order of the containers *)

Lemma NoDup_containers : NoDup containers.
Proof.
  unfold containers.
  repeat (constructor; [simpl; intuition discriminate |]). constructor.
Qed.

Lemma NoDup_app_disjoint (l1 l2 : list pyclass) c :
  NoDup (l1 ++ l2) -> In c l1 -> ~ In c l2.
Proof.
  induction l1 as [| x l1 IH]; simpl; [contradiction|].
  intros Hnd [-> | Hin] Hc; inversion Hnd as [| ? ? Hx Hnd']; subst.
  - apply Hx, in_or_app. right. exact Hc.
  - exact (IH Hnd' Hin Hc).
Qed.

Lemma event_of_class item args kwargs k ev :
  event_of item args kwargs k ev -> event_class ev = k.
Proof. destruct ev; simpl; intuition. Qed.

(** What is recorded up to the container that ends the loop concerns no
    container after it. *)
Lemma earlier_only {World : Type} item args kwargs pre k post (st st' : state World) :
  containers = (pre ++ k :: post)%list ->
  Extends (fun ev => exists k', In k' (pre ++ [k]) /\ event_of item args kwargs k' ev) st st' ->
  Extends (fun ev => In (event_class ev) (pre ++ [k]) /\ ~ In (event_class ev) post) st st'.
Proof.
  intros Hcs. apply Extends_weaken. intros ev [k' [Hin Hev]].
  apply event_of_class in Hev. subst k'. split; [assumption|].
  intros Hpost. pose proof NoDup_containers as Hnd. rewrite Hcs in Hnd.
  replace (pre ++ k :: post)%list with ((pre ++ [k]) ++ post)%list in Hnd
    by (rewrite <- app_assoc; reflexivity).
  exact (NoDup_app_disjoint _ _ _ Hnd Hin Hpost).
Qed.

(** ** The dispatcher *)

Section OpenFacts.
Context {World : Type} (E : environment World).
Variables (item : value) (args : list value) (kwargs : list (string * value)).

(** When the containers before [k] decline, [open] comes to the turn of [k]. *)
Lemma open_reaches pre k post st st1 :
  containers = (pre ++ k :: post)%list ->
  Chain (Declines E (normalize item) args kwargs) pre st st1 ->
  open E item args kwargs st =
  for_containers E (k :: post) (normalize item) args kwargs st1.
Proof.
  intros Hcs Hpre. unfold open. rewrite Hcs.
  apply for_containers_skip. exact Hpre.
Qed.

Lemma turn_extends pre k st st1 r st2 :
  Chain (Declines E (normalize item) args kwargs) pre st st1 ->
  attempt E k (normalize item) args kwargs st1 = (r, st2) ->
  Extends (fun ev => exists k', In k' (pre ++ [k]) /\
                                event_of (normalize item) args kwargs k' ev) st st2.
Proof.
  intros Hpre Ha. eapply Extends_trans.
  - eapply Extends_weaken; [| eapply Chain_extends; exact Hpre].
    intros ev [k' [Hin Hev]]. exists k'. split; [apply in_or_app; left; exact Hin | exact Hev].
  - eapply Extends_weaken; [| eapply attempt_extends; exact Ha].
    intros ev Hev. exists k. split; [apply in_or_app; right; left; reflexivity | exact Hev].
Qed.

(** C1 (as amended).  [open] tries the containers in the order
    [EwfContainer, VmdkContainer, VhdxContainer, VhdContainer, QCow2Container,
    VdiContainer, SplitContainer, RawContainer], the raw container last.  When
    every container before [k] is probed without a match (its [detect] returns
    false or the call fails with an [ImportError]), the [detect] of [k] returns
    true and the constructor of [k] returns [c], then [open] returns [c], and
    nothing is recorded for a container after [k]: none has its [detect]
    called. *)
Theorem open_first_match pre k post st st1 st2 st3 c :
  containers = (pre ++ k :: post)%list ->
  Chain (NoMatch E (normalize item)) pre st st1 ->
  call_detect E k (normalize item) st1 = (Ok true, st2) ->
  instantiate E k (normalize item) args kwargs st2 = (Ok c, st3) ->
  open E item args kwargs st = (Ok c, st3) /\
  Extends (fun ev => In (event_class ev) (pre ++ [k]) /\ ~ In (event_class ev) post) st st3 /\
  containers = [ EwfContainer; VmdkContainer; VhdxContainer; VhdContainer;
                 QCow2Container; VdiContainer; SplitContainer; RawContainer ] /\
  last containers BaseContainer = RawContainer.
Proof.
  intros Hcs Hpre Hd Hn.
  assert (Hdec : Chain (Declines E (normalize item) args kwargs) pre st st1)
    by (eapply Chain_weaken; [| exact Hpre]; intros; apply NoMatch_Declines; assumption).
  assert (Ha : attempt E k (normalize item) args kwargs st1 = (Ok (Some c), st3))
    by (apply attempt_opens; econstructor; eassumption).
  repeat split.
  - rewrite (open_reaches _ _ _ _ _ Hcs Hdec). simpl. unfold bind at 1.
    rewrite Ha. reflexivity.
  - eapply earlier_only; [exact Hcs | eapply turn_extends; eassumption].
Qed.

(** C2 (as amended).  When [open] comes to a container whose [detect] returns
    true and whose constructor raises an exception that is an [Exception] but
    not an [ImportError], it raises at once the [ContainerError] that wraps the
    exception, and nothing is recorded for a later container: none has its
    [detect] called, and none is returned. *)
Theorem open_fatal_on_match pre k post st st1 st2 st3 e :
  containers = (pre ++ k :: post)%list ->
  Chain (Declines E (normalize item) args kwargs) pre st st1 ->
  call_detect E k (normalize item) st1 = (Ok true, st2) ->
  instantiate E k (normalize item) args kwargs st2 = (Raise e, st3) ->
  isinstance_ImportError e = false ->
  isinstance_Exception e = true ->
  open E item args kwargs st =
    (Raise (ContainerError ("Failed to open container " ++ format E (normalize item))
                           (Some e)), st3) /\
  Extends (fun ev => In (event_class ev) (pre ++ [k]) /\ ~ In (event_class ev) post) st st3.
Proof.
  intros Hcs Hpre Hd Hn Hi He.
  assert (Ha : attempt E k (normalize item) args kwargs st1 =
               (Raise (escaping E (normalize item) e), st3))
    by (apply attempt_fails; eapply Fails_new; eassumption).
  split.
  - rewrite (open_reaches _ _ _ _ _ Hcs Hpre). simpl. unfold bind at 1.
    rewrite Ha. unfold escaping. rewrite He. reflexivity.
  - eapply earlier_only; [exact Hcs | eapply turn_extends; eassumption].
Qed.

(** C3 (as amended).  When [open] comes to a container whose call
    [container.detect(item)] raises an [ImportError], that turn of the loop
    raises nothing: a warning naming the container and the error is logged and
    [open] goes on with the containers after it, in order.  So [open] returns
    an instance whenever, of the containers after it, some decline and the
    next one matches and its constructor returns. *)
Theorem open_skips_unavailable pre k post st st1 st2 e :
  containers = (pre ++ k :: post)%list ->
  Chain (Declines E (normalize item) args kwargs) pre st st1 ->
  call_detect E k (normalize item) st1 = (Raise e, st2) ->
  isinstance_ImportError e = true ->
  attempt E k (normalize item) args kwargs st1 = (Ok None, warned k e st2) /\
  trace (warned k e st2) = (trace st2 ++ [Log_warning "Failed to import %s" k e])%list /\
  open E item args kwargs st =
    for_containers E post (normalize item) args kwargs (warned k e st2) /\
  (forall mid k' post' st3 c st4,
      post = (mid ++ k' :: post')%list ->
      Chain (Declines E (normalize item) args kwargs) mid (warned k e st2) st3 ->
      Opens E (normalize item) args kwargs k' st3 c st4 ->
      open E item args kwargs st = (Ok c, st4)).
Proof.
  intros Hcs Hpre Hd He.
  assert (Ha : attempt E k (normalize item) args kwargs st1 = (Ok None, warned k e st2))
    by (apply attempt_declines, Declines_no_match; eapply NoMatch_import; eauto).
  assert (Ho : open E item args kwargs st =
               for_containers E post (normalize item) args kwargs (warned k e st2)).
  { rewrite (open_reaches _ _ _ _ _ Hcs Hpre). simpl. unfold bind at 1.
    rewrite Ha. reflexivity. }
  repeat split; try assumption.
  intros mid k' post' st3 c st4 -> Hmid Hopen.
  rewrite Ho, (for_containers_skip E _ _ _ _ _ _ _ Hmid). simpl. unfold bind at 1.
  rewrite (attempt_opens E _ _ _ _ _ _ _ Hopen). reflexivity.
Qed.
End OpenFacts.

(** ** Container.detect *)

(** C4.  [Container.detect] takes as representative the first element of a
    list and otherwise the item itself; when the representative has a [read]
    attribute it returns what [detect_fh] returns for the representative and
    the whole original item, and otherwise what [detect_path] returns for
    them. *)
Theorem detect_dispatch {World : Type} (E : environment World) c item i st :
  (exists l, item = VList (i :: l)) \/ (isinstance_list item = false /\ i = item) ->
  Container.detect E c item st =
  (if hasattr_read i
   then Container.detect_fh E c i item
   else Container.detect_path E c i item) (record (Call_detect c item) st).
Proof.
  intros [[l ->] | [Hl ->]].
  - reflexivity.
  - destruct item; try discriminate; reflexivity.
Qed.

(** ** Normalisation of the item *)

(** C5.  [open] probes with the normalised item: a string becomes a path; a
    list keeps its length and order, each string entry becoming a path and
    every other entry staying as it is; a stream (and a path) is passed
    unchanged.  Every call [open] records carries the normalised item. *)
Theorem open_normalizes {World : Type} (E : environment World) item args kwargs st :
  (forall s, normalize (VStr s) = VPath s) /\
  (forall l, exists l',
      normalize (VList l) = VList l' /\
      length l' = length l /\
      forall n, nth_error l' n =
                option_map (fun entry => match entry with
                                         | VStr s => VPath s
                                         | _ => entry
                                         end) (nth_error l n)) /\
  (forall h, normalize (VStream h) = VStream h) /\
  (forall p, normalize (VPath p) = VPath p) /\
  open E item args kwargs st =
    for_containers E containers (normalize item) args kwargs st /\
  Extends (fun ev => exists k, In k containers /\
                               event_of (normalize item) args kwargs k ev)
          st (snd (open E item args kwargs st)).
Proof.
  repeat split.
  - intros l. eexists. split; [reflexivity|]. split.
    + apply length_map.
    + intros n. rewrite nth_error_map.
      destruct (nth_error l n) as [[]|]; reflexivity.
  - unfold open.
    destruct (for_containers E containers (normalize item) args kwargs st) as [r st'] eqn:H.
    exact (for_containers_extends E _ _ _ _ _ _ _ H).
Qed.

(** ** The errors of open *)

Lemma Fails_not_import {World : Type} (E : environment World) item args kwargs k st e st' :
  Fails E item args kwargs k st e st' -> isinstance_ImportError e = false.
Proof. intros [_ H | ? _ _ H]; exact H. Qed.

Lemma escaping_wrapped {World : Type} (E : environment World) item e m e' :
  escaping E item e = ContainerError m (Some e') ->
  m = "Failed to open container " ++ format E item /\ e = e' /\
  isinstance_Exception e' = true.
Proof.
  unfold escaping. destruct (isinstance_Exception e) eqn:He.
  - intros [= <- <-]. auto.
  - intros ->. discriminate.
Qed.

Lemma escaping_not_bare {World : Type} (E : environment World) item e m :
  escaping E item e <> ContainerError m None.
Proof.
  unfold escaping. destruct (isinstance_Exception e) eqn:He.
  - discriminate.
  - intros ->. discriminate.
Qed.

Section ErrorFacts.
Context {World : Type} (E : environment World).
Variables (item : value) (args : list value) (kwargs : list (string * value)).

(** C6 (as amended).  [open] raises a [ContainerError] with a cause [e] exactly
    when it comes to a container whose [detect] or, after a match, constructor
    raises [e], an [Exception] that is not an [ImportError].  The message of
    the error is ["Failed to open container "] followed by the normalised item
    and its cause is [e]; the error says nothing else, so it does not tell
    which container failed. *)
Theorem open_failure_wraps_cause st :
  (forall m e st',
      open E item args kwargs st = (Raise (ContainerError m (Some e)), st') ->
      m = "Failed to open container " ++ format E (normalize item) /\
      isinstance_Exception e = true /\
      isinstance_ImportError e = false /\
      exists pre k post st1,
        containers = (pre ++ k :: post)%list /\
        Chain (Declines E (normalize item) args kwargs) pre st st1 /\
        Fails E (normalize item) args kwargs k st1 e st') /\
  (forall pre k post st1 e st',
      containers = (pre ++ k :: post)%list ->
      Chain (Declines E (normalize item) args kwargs) pre st st1 ->
      Fails E (normalize item) args kwargs k st1 e st' ->
      isinstance_Exception e = true ->
      open E item args kwargs st =
        (Raise (ContainerError ("Failed to open container " ++ format E (normalize item))
                               (Some e)), st')).
Proof.
  split.
  - intros m e st' H. unfold open in H. apply for_containers_inv in H.
    destruct H as [(pre & k & post & st1 & c & _ & _ & _ & Hr)
                  | [(pre & k & post & st1 & e0 & Hcs & Hpre & Hf & Hr) | [_ Hr]]];
      try discriminate.
    injection Hr as Hr. symmetry in Hr. apply escaping_wrapped in Hr.
    destruct Hr as (-> & -> & He). repeat split; try assumption.
    + eapply Fails_not_import; eassumption.
    + exists pre, k, post, st1. auto.
  - intros pre k post st1 e st' Hcs Hpre Hf He.
    rewrite (open_reaches E _ _ _ _ _ _ _ _ Hcs Hpre). simpl. unfold bind at 1.
    rewrite (attempt_fails E _ _ _ _ _ _ _ Hf). unfold escaping. rewrite He. reflexivity.
Qed.

(** C7 (as amended).  When the [detect] of every container returns false,
    [open] raises the [ContainerError] whose message is ["Failed to detect
    container for "] followed by the normalised item and which has no cause.
    It raises that error exactly when every container declines, be it by
    returning false or by an [ImportError].  [open] ends in one of four ways:
    it returns an instance, raises a [ContainerError] that wraps a cause,
    raises the error above, or lets through an exception that is not an
    [Exception]. *)
Theorem open_no_match st :
  (forall st',
      Chain (fun k s s' => call_detect E k (normalize item) s = (Ok false, s'))
            containers st st' ->
      open E item args kwargs st =
        (Raise (ContainerError ("Failed to detect container for " ++
                                format E (normalize item)) None), st')) /\
  (forall m st',
      open E item args kwargs st = (Raise (ContainerError m None), st') <->
      m = "Failed to detect container for " ++ format E (normalize item) /\
      Chain (Declines E (normalize item) args kwargs) containers st st') /\
  (forall r st',
      open E item args kwargs st = (r, st') ->
      (exists c, r = Ok c) \/
      (exists e, r = Raise (ContainerError
                              ("Failed to open container " ++ format E (normalize item))
                              (Some e))) \/
      r = Raise (ContainerError ("Failed to detect container for " ++
                                 format E (normalize item)) None) \/
      (exists e, r = Raise e /\ isinstance_Exception e = false)).
Proof.
  assert (Hall : forall st',
             Chain (Declines E (normalize item) args kwargs) containers st st' ->
             open E item args kwargs st =
               (Raise (ContainerError ("Failed to detect container for " ++
                                       format E (normalize item)) None), st')).
  { intros st' Hc. unfold open.
    rewrite <- (app_nil_r containers).
    rewrite (for_containers_skip E _ _ _ _ _ _ _ Hc). reflexivity. }
  split; [| split].
  - intros st' Hc. apply Hall. eapply Chain_weaken; [| exact Hc].
    intros k s s' H. apply Declines_no_match, NoMatch_false. exact H.
  - intros m st'. split.
    + intros H. unfold open in H. apply for_containers_inv in H.
      destruct H as [(pre & k & post & st1 & c & _ & _ & _ & Hr)
                    | [(pre & k & post & st1 & e0 & _ & _ & _ & Hr) | [Hc Hr]]];
        try discriminate.
      * injection Hr as Hr. symmetry in Hr. apply escaping_not_bare in Hr. contradiction.
      * injection Hr as ->. auto.
    + intros [-> Hc]. apply Hall. exact Hc.
  - intros r st' H. unfold open in H. apply for_containers_inv in H.
    destruct H as [(pre & k & post & st1 & c & _ & _ & _ & ->)
                  | [(pre & k & post & st1 & e0 & _ & _ & _ & ->) | [_ ->]]].
    + left. eauto.
    + unfold escaping. destruct (isinstance_Exception e0) eqn:He.
      * right; left. eauto.
      * right; right; right. eauto.
    + right; right; left. reflexivity.
Qed.

End ErrorFacts.

(** ** Container.seekable *)

(** C9.  [seekable] returns [True] for every instance, whatever its class and
    whatever it holds. *)
Theorem seekable_always_true (self : instance) : Container.seekable self = true.
Proof. reflexivity. Qed.

(** ** The empty list *)

Section EmptyList.
Context {World : Type} (E : environment World).
Variables (args : list value) (kwargs : list (string * value)).






End EmptyList.

(** ** Sample runs *)

(** [open("disk.vhdx", "x", size="1")] when the EWF module is missing: EWF is
    passed over, VMDK does not match, VHDX matches and is returned. *)
Lemma open_first_match_witness :
  open env_vhdx (VStr "disk.vhdx") [VStr "x"] [("size", VStr "1")] start =
    (Ok {| cls := VhdxContainer; fh := VPath "disk.vhdx"; size := 512; vs := None |},
     {| world := 6;
        trace :=
          [ Getattr_detect EwfContainer;
            Log_warning "Failed to import %s" EwfContainer
              (ModuleNotFoundError "No module named 'dissect.evidence'");
            Getattr_detect VmdkContainer;
            Call_detect VmdkContainer (VPath "disk.vhdx");
            Call_detect_path VmdkContainer (VPath "disk.vhdx") (VPath "disk.vhdx");
            Getattr_detect VhdxContainer;
            Call_detect VhdxContainer (VPath "disk.vhdx");
            Call_detect_path VhdxContainer (VPath "disk.vhdx") (VPath "disk.vhdx");
            Call_init VhdxContainer (VPath "disk.vhdx") [VStr "x"] [("size", VStr "1")] ] |}) /\
  Extends (fun ev =>
             In (event_class ev) ([EwfContainer; VmdkContainer] ++ [VhdxContainer]) /\
             ~ In (event_class ev)
                  [VhdContainer; QCow2Container; VdiContainer; SplitContainer; RawContainer])
          start
          {| world := 6;
             trace :=
               [ Getattr_detect EwfContainer;
                 Log_warning "Failed to import %s" EwfContainer
                   (ModuleNotFoundError "No module named 'dissect.evidence'");
                 Getattr_detect VmdkContainer;
                 Call_detect VmdkContainer (VPath "disk.vhdx");
                 Call_detect_path VmdkContainer (VPath "disk.vhdx") (VPath "disk.vhdx");
                 Getattr_detect VhdxContainer;
                 Call_detect VhdxContainer (VPath "disk.vhdx");
                 Call_detect_path VhdxContainer (VPath "disk.vhdx") (VPath "disk.vhdx");
                 Call_init VhdxContainer (VPath "disk.vhdx") [VStr "x"] [("size", VStr "1")] ] |} /\
  containers = [ EwfContainer; VmdkContainer; VhdxContainer; VhdContainer;
                 QCow2Container; VdiContainer; SplitContainer; RawContainer ] /\
  last containers BaseContainer = RawContainer.
Proof.
  eapply (open_first_match env_vhdx (VStr "disk.vhdx") _ _
            [EwfContainer; VmdkContainer] VhdxContainer _ start).
  - reflexivity.
  - eapply Chain_cons.
    + eapply NoMatch_import; reflexivity.
    + eapply Chain_cons; [apply NoMatch_false; reflexivity | apply Chain_nil].
  - reflexivity.
  - reflexivity.
Defined.

(** C1, counterexample.  The raw [detect] returns true for the item, but the
    EWF [detect], called first, raises [ValueError]: [open] raises and returns
    no instance.  Nor does it return one when the EWF [detect] returns true
    and the EWF constructor raises [ValueError]. *)
Lemma match_after_failure_not_returned :
  (forall st, fst (call_detect env_ewf_detect_raises RawContainer
                               (normalize (VPath "disk.img")) st) = Ok true) /\
  In RawContainer containers /\
  open env_ewf_detect_raises (VPath "disk.img") [] [] start =
    (Raise (ContainerError "Failed to open container disk.img"
                           (Some (Exception "ValueError" "bad header"))),
     {| world := 2;
        trace := [ Getattr_detect EwfContainer;
                   Call_detect EwfContainer (VPath "disk.img");
                   Call_detect_path EwfContainer (VPath "disk.img") (VPath "disk.img") ] |}) /\
  fst (call_detect env_ewf_new_raises EwfContainer (normalize (VPath "disk.E01")) start) =
    Ok true /\
  fst (open env_ewf_new_raises (VPath "disk.E01") [] [] start) =
    Raise (ContainerError "Failed to open container disk.E01"
                          (Some (Exception "ValueError" "corrupt segment"))).
Proof.
  split; [| split; [| split; [| split]]].
  - intros st. reflexivity.
  - simpl. tauto.
  - reflexivity.
  - reflexivity.
  - reflexivity.
Qed.

(** [open(["disk.E01", stream])] when the EWF [detect] matches and the EWF
    constructor raises [ValueError]. *)
Lemma open_fatal_on_match_witness :
  open env_ewf_new_raises (VList [VStr "disk.E01"; VStream 3]) [] [] start =
    (Raise (ContainerError
              ("Failed to open container " ++
               format env_ewf_new_raises (normalize (VList [VStr "disk.E01"; VStream 3])))
              (Some (Exception "ValueError" "corrupt segment"))),
     {| world := 3;
        trace :=
          [ Getattr_detect EwfContainer;
            Call_detect EwfContainer (VList [VPath "disk.E01"; VStream 3]);
            Call_detect_path EwfContainer (VPath "disk.E01")
              (VList [VPath "disk.E01"; VStream 3]);
            Call_init EwfContainer (VList [VPath "disk.E01"; VStream 3]) [] [] ] |}) /\
  Extends (fun ev =>
             In (event_class ev) ([] ++ [EwfContainer]) /\
             ~ In (event_class ev)
                  [VmdkContainer; VhdxContainer; VhdContainer; QCow2Container;
                   VdiContainer; SplitContainer; RawContainer])
          start
          {| world := 3;
             trace :=
               [ Getattr_detect EwfContainer;
                 Call_detect EwfContainer (VList [VPath "disk.E01"; VStream 3]);
                 Call_detect_path EwfContainer (VPath "disk.E01")
                   (VList [VPath "disk.E01"; VStream 3]);
                 Call_init EwfContainer (VList [VPath "disk.E01"; VStream 3]) [] [] ] |}.
Proof.
  eapply (open_fatal_on_match env_ewf_new_raises (VList [VStr "disk.E01"; VStream 3]) _ _
            [] EwfContainer _ start).
  - reflexivity.
  - apply Chain_nil.
  - reflexivity.
  - reflexivity.
  - reflexivity.
  - reflexivity.
Defined.

(** C2, counterexample.  The EWF [detect] returns true and the EWF constructor
    raises [ImportError]: [open] logs a warning, goes on to call the [detect]
    of the containers after it and returns a raw container. *)
Lemma constructor_import_error_falls_through :
  call_detect env_ewf_new_import_error EwfContainer (VPath "disk.E01") start =
    (Ok true,
     {| world := 2;
        trace := [ Getattr_detect EwfContainer;
                   Call_detect EwfContainer (VPath "disk.E01");
                   Call_detect_path EwfContainer (VPath "disk.E01") (VPath "disk.E01") ] |}) /\
  fst (instantiate env_ewf_new_import_error EwfContainer (VPath "disk.E01") [] []
         {| world := 2;
            trace := [ Getattr_detect EwfContainer;
                       Call_detect EwfContainer (VPath "disk.E01");
                       Call_detect_path EwfContainer (VPath "disk.E01") (VPath "disk.E01") ] |})
    = Raise (ImportError "cannot import name 'EWF'") /\
  fst (open env_ewf_new_import_error (VPath "disk.E01") [] [] start) =
    Ok {| cls := RawContainer; fh := VPath "disk.E01"; size := 512; vs := None |} /\
  In (Call_detect VmdkContainer (VPath "disk.E01"))
     (trace (snd (open env_ewf_new_import_error (VPath "disk.E01") [] [] start))) /\
  In (Log_warning "Failed to import %s" EwfContainer (ImportError "cannot import name 'EWF'"))
     (trace (snd (open env_ewf_new_import_error (VPath "disk.E01") [] [] start))).
Proof.
  repeat split; try reflexivity; vm_compute; tauto.
Qed.

(** [open("disk.vhdx")] when the EWF module is missing: a warning, and the
    VHDX container found later is returned. *)
Lemma open_skips_unavailable_witness :
  attempt env_vhdx EwfContainer (normalize (VStr "disk.vhdx")) [] [] start =
    (Ok None,
     {| world := 1;
        trace := [ Getattr_detect EwfContainer;
                   Log_warning "Failed to import %s" EwfContainer
                     (ModuleNotFoundError "No module named 'dissect.evidence'") ] |}) /\
  fst (open env_vhdx (VStr "disk.vhdx") [] [] start) =
    Ok {| cls := VhdxContainer; fh := VPath "disk.vhdx"; size := 512; vs := None |}.
Proof.
  destruct (open_skips_unavailable env_vhdx (VStr "disk.vhdx") [] []
              [] EwfContainer
              [VmdkContainer; VhdxContainer; VhdContainer; QCow2Container;
               VdiContainer; SplitContainer; RawContainer]
              start start
              {| world := 1; trace := [Getattr_detect EwfContainer] |}
              (ModuleNotFoundError "No module named 'dissect.evidence'")
              eq_refl (Chain_nil _ _) eq_refl eq_refl)
    as (Hturn & _ & _ & Hlater).
  split; [exact Hturn |].
  erewrite (Hlater [VmdkContainer] VhdxContainer).
  - reflexivity.
  - reflexivity.
  - eapply Chain_cons; [| apply Chain_nil].
    apply Declines_no_match, NoMatch_false. reflexivity.
  - eapply Opens_intro; reflexivity.
Defined.

(** C3, counterexample.  The EWF [detect] call raises an [ImportError] and a
    later container matches, yet [open] does not succeed: in the first run
    the VHDX [detect] returns true but the VHDX constructor raises
    [ValueError]; in the second the raw [detect] returns true but the VMDK
    [detect], called before it, raises [ValueError].  Both times the warning
    for EWF is logged and [open] raises. *)
Lemma later_match_may_still_fail :
  call_detect env_vhdx_new_raises EwfContainer (normalize (VStr "disk.vhdx")) start =
    (Raise (ModuleNotFoundError "No module named 'dissect.evidence'"),
     {| world := 1; trace := [Getattr_detect EwfContainer] |}) /\
  (forall st, fst (call_detect env_vhdx_new_raises VhdxContainer
                               (normalize (VStr "disk.vhdx")) st) = Ok true) /\
  open env_vhdx_new_raises (VStr "disk.vhdx") [] [] start =
    (Raise (ContainerError "Failed to open container disk.vhdx"
                           (Some (Exception "ValueError" "corrupt header"))),
     {| world := 6;
        trace :=
          [ Getattr_detect EwfContainer;
            Log_warning "Failed to import %s" EwfContainer
              (ModuleNotFoundError "No module named 'dissect.evidence'");
            Getattr_detect VmdkContainer;
            Call_detect VmdkContainer (VPath "disk.vhdx");
            Call_detect_path VmdkContainer (VPath "disk.vhdx") (VPath "disk.vhdx");
            Getattr_detect VhdxContainer;
            Call_detect VhdxContainer (VPath "disk.vhdx");
            Call_detect_path VhdxContainer (VPath "disk.vhdx") (VPath "disk.vhdx");
            Call_init VhdxContainer (VPath "disk.vhdx") [] [] ] |}) /\
  (forall st, fst (call_detect env_missing_then_vmdk_raises RawContainer
                               (normalize (VStr "disk.img")) st) = Ok true) /\
  open env_missing_then_vmdk_raises (VStr "disk.img") [] [] start =
    (Raise (ContainerError "Failed to open container disk.img"
                           (Some (Exception "ValueError" "bad header"))),
     {| world := 3;
        trace :=
          [ Getattr_detect EwfContainer;
            Log_warning "Failed to import %s" EwfContainer
              (ModuleNotFoundError "No module named 'dissect.evidence'");
            Getattr_detect VmdkContainer;
            Call_detect VmdkContainer (VPath "disk.img");
            Call_detect_path VmdkContainer (VPath "disk.img") (VPath "disk.img") ] |}).
Proof.
  split; [| split; [| split; [| split]]].
  - reflexivity.
  - intros st. reflexivity.
  - reflexivity.
  - intros st. reflexivity.
  - reflexivity.
Qed.

(** [detect] on a list whose first element is a stream. *)
Lemma detect_dispatch_witness :
  Container.detect env_vhdx VhdxContainer (VList [VStream 7; VPath "b"]) start =
  Container.detect_fh env_vhdx VhdxContainer (VStream 7) (VList [VStream 7; VPath "b"])
    (record (Call_detect VhdxContainer (VList [VStream 7; VPath "b"])) start).
Proof.
  apply (detect_dispatch env_vhdx VhdxContainer (VList [VStream 7; VPath "b"]) (VStream 7) start).
  left. exists [VPath "b"]. reflexivity.
Defined.

(** [open("disk.img")] when the EWF [detect] raises [ValueError]. *)
Lemma open_failure_wraps_cause_witness :
  open env_ewf_detect_raises (VStr "disk.img") [] [] start =
    (Raise (ContainerError
              ("Failed to open container " ++
               format env_ewf_detect_raises (normalize (VStr "disk.img")))
              (Some (Exception "ValueError" "bad header"))),
     {| world := 2;
        trace := [ Getattr_detect EwfContainer;
                   Call_detect EwfContainer (VPath "disk.img");
                   Call_detect_path EwfContainer (VPath "disk.img") (VPath "disk.img") ] |}).
Proof.
  apply (proj2 (open_failure_wraps_cause env_ewf_detect_raises (VStr "disk.img") [] [] start)
               [] EwfContainer
               [VmdkContainer; VhdxContainer; VhdContainer; QCow2Container;
                VdiContainer; SplitContainer; RawContainer]
               start).
  - reflexivity.
  - apply Chain_nil.
  - apply Fails_detect; reflexivity.
  - reflexivity.
Defined.

(** C6, counterexample.  The same [ValueError] raised by the EWF [detect] in
    one run and by the VMDK [detect] in another gives the same error: nothing
    in it tells which container failed. *)
Lemma error_does_not_name_candidate :
  fst (open env_ewf_detect_raises (VPath "disk.img") [] [] start) =
    Raise (ContainerError "Failed to open container disk.img"
                          (Some (Exception "ValueError" "bad header"))) /\
  fst (open env_vmdk_detect_raises (VPath "disk.img") [] [] start) =
    Raise (ContainerError "Failed to open container disk.img"
                          (Some (Exception "ValueError" "bad header"))) /\
  last_detect (trace (snd (open env_ewf_detect_raises (VPath "disk.img") [] [] start))) =
    Some EwfContainer /\
  last_detect (trace (snd (open env_vmdk_detect_raises (VPath "disk.img") [] [] start))) =
    Some VmdkContainer.
Proof. repeat split; reflexivity. Qed.

(** [open(stream)] when every [detect] returns false. *)
Lemma open_no_match_witness :
  open env_nothing_matches (VStream 1) [] [] start =
    (Raise (ContainerError
              ("Failed to detect container for " ++
               format env_nothing_matches (normalize (VStream 1))) None),
     snd (open env_nothing_matches (VStream 1) [] [] start)).
Proof.
  apply (proj1 (open_no_match env_nothing_matches (VStream 1) [] [] start)).
  unfold containers.
  repeat (eapply Chain_cons; [reflexivity |]).
  apply Chain_nil.
Defined.

(** C7, counterexample.  When no module can be imported no [detect] is called,
    let alone returns false, and [open] raises the same error.  When the EWF
    [detect] raises [KeyboardInterrupt], [open] ends by raising just that:
    not an instance, not a [ContainerError]. *)
Lemma no_match_without_false_detect :
  fst (open env_nothing_imports (VStream 1) [] [] start) =
    Raise (ContainerError "Failed to detect container for <_io.BytesIO object>" None) /\
  forallb (fun ev => negb (is_call_detect ev))
          (trace (snd (open env_nothing_imports (VStream 1) [] [] start))) = true /\
  fst (open env_interrupted (VStream 1) [] [] start) =
    Raise (BaseException "KeyboardInterrupt").
Proof. repeat split; reflexivity. Qed.




(** * Further properties *)

(** ** What a turn records *)

Section TurnShape.
Context {World : Type} (E : environment World).
Variables (item : value) (args : list value) (kwargs : list (string * value)).

Lemma lift_trace {A} (f : World -> result A * World) (st : state World) r st' :
  lift f st = (r, st') -> trace st' = trace st.
Proof.
  unfold lift. destruct (f (world st)) as [r0 w]. intros [= _ <-]. reflexivity.
Qed.

Lemma detect_fh_trace c rep st r st' :
  Container.detect_fh E c rep item st = (r, st') ->
  trace st' = (trace st ++ [Call_detect_fh c rep item])%list.
Proof.
  unfold Container.detect_fh, bind, emit. intros H.
  destruct c; try (apply lift_trace in H; exact H).
  injection H as _ <-. reflexivity.
Qed.

Lemma detect_path_trace c rep st r st' :
  Container.detect_path E c rep item st = (r, st') ->
  trace st' = (trace st ++ [Call_detect_path c rep item])%list.
Proof.
  unfold Container.detect_path, bind, emit. intros H.
  destruct c; try (apply lift_trace in H; exact H).
  injection H as _ <-. reflexivity.
Qed.

(** [detect] calls one hook, or none on the empty list. *)
Lemma detect_trace c st r st' :
  Container.detect E c item st = (r, st') ->
  (item = VList [] /\ r = Raise (IndexError "list index out of range") /\
   trace st' = (trace st ++ [Call_detect c item])%list) \/
  (exists h, Hook item c h /\
             trace st' = (trace st ++ [Call_detect c item; h])%list).
Proof.
  unfold Container.detect. unfold bind at 1. unfold emit.
  assert (Hdisp : forall rep,
             Representative item rep ->
             (if hasattr_read rep
              then Container.detect_fh E c rep item
              else Container.detect_path E c rep item)
               (record (Call_detect c item) st) = (r, st') ->
             exists h, Hook item c h /\
                       trace st' = (trace st ++ [Call_detect c item; h])%list).
  { intros rep Hrep. destruct (hasattr_read rep) eqn:Hr; intros H.
    - apply detect_fh_trace in H. exists (Call_detect_fh c rep item).
      split; [apply Hook_fh; assumption |].
      rewrite H. simpl. rewrite <- app_assoc. reflexivity.
    - apply detect_path_trace in H. exists (Call_detect_path c rep item).
      split; [apply Hook_path; assumption |].
      rewrite H. simpl. rewrite <- app_assoc. reflexivity. }
  revert Hdisp. unfold bind, Representative.
  destruct item as [s | p | h | [| x l]]; simpl; intros Hdisp.
  - intros H. right. apply (Hdisp (VStr s)); [right; auto | exact H].
  - intros H. right. apply (Hdisp (VPath p)); [right; auto | exact H].
  - intros H. right. apply (Hdisp (VStream h)); [right; auto | exact H].
  - intros [= <- <-]. left. auto.
  - intros H. right. apply (Hdisp x); [left; eauto | exact H].
Qed.

Lemma call_detect_trace k st r st' :
  call_detect E k item st = (r, st') ->
  (exists e, r = Raise e /\ trace st' = (trace st ++ [Getattr_detect k])%list) \/
  (item = VList [] /\ r = Raise (IndexError "list index out of range") /\
   trace st' = (trace st ++ [Getattr_detect k; Call_detect k item])%list) \/
  (exists h, Hook item k h /\
             trace st' = (trace st ++ [Getattr_detect k; Call_detect k item; h])%list).
Proof.
  unfold call_detect. unfold bind at 1. unfold emit. unfold bind.
  destruct (lift (getattr_detect E k) (record (Getattr_detect k) st))
    as [[u | e] st1] eqn:Hl; apply lift_trace in Hl; simpl in Hl.
  - intros H. apply detect_trace in H. right.
    destruct H as [(Hi & Hr & Ht) | (h & Hh & Ht)].
    + left. repeat split; try assumption.
      rewrite Ht, Hl, <- app_assoc. reflexivity.
    + right. exists h. split; [assumption |].
      rewrite Ht, Hl, <- app_assoc. reflexivity.
  - intros [= <- <-]. left. exists e. auto.
Qed.

Lemma instantiate_trace k st r st' :
  instantiate E k item args kwargs st = (r, st') ->
  trace st' = (trace st ++ [Call_init k item args kwargs])%list.
Proof.
  unfold instantiate, bind, emit. intros H. apply lift_trace in H. exact H.
Qed.

(** Every turn of the loop records a [Turn]. *)
Lemma attempt_turn k st r st' :
  attempt E k item args kwargs st = (r, st') ->
  exists evs, trace st' = (trace st ++ evs)%list /\ Turn item args kwargs k evs.
Proof.
  intros H. apply attempt_inv in H.
  destruct H as [[c [_ Hop]] | [[_ Hdec] | [e [_ Hf]]]].
  - destruct Hop as [st1 Hd Hn].
    apply call_detect_trace in Hd. apply instantiate_trace in Hn.
    destruct Hd as [(e & He & _) | [(_ & He & _) | (h & Hh & Ht)]]; try discriminate.
    eexists. split; [rewrite Hn, Ht, <- app_assoc; reflexivity |].
    apply Turn_init; [assumption | constructor].
  - destruct Hdec as [[Hd | e st1 Hd He ->] | e st1 st2 Hd Hn He ->].
    + apply call_detect_trace in Hd.
      destruct Hd as [(e & He & _) | [(_ & He & _) | (h & Hh & Ht)]]; try discriminate.
      eexists. split; [exact Ht |]. apply Turn_hook; [assumption | constructor].
    + apply call_detect_trace in Hd.
      destruct Hd as [(e' & He' & Ht) | [(_ & He' & _) | (h & Hh & Ht)]].
      * eexists. split; [simpl; rewrite Ht, <- app_assoc; reflexivity |].
        apply Turn_lookup. constructor. exact He.
      * injection He' as ->. discriminate.
      * eexists. split; [simpl; rewrite Ht, <- app_assoc; reflexivity |].
        apply Turn_hook; [assumption | constructor; exact He].
    + apply call_detect_trace in Hd. apply instantiate_trace in Hn.
      destruct Hd as [(e' & He' & _) | [(_ & He' & _) | (h & Hh & Ht)]]; try discriminate.
      eexists. split; [simpl; rewrite Hn, Ht, <- !app_assoc; reflexivity |].
      apply Turn_init; [assumption | constructor; exact He].
  - destruct Hf as [Hd He | st1 Hd Hn He].
    + apply call_detect_trace in Hd.
      destruct Hd as [(e' & He' & Ht) | [(Hi & He' & Ht) | (h & Hh & Ht)]].
      * eexists. split; [exact Ht |]. apply Turn_lookup. constructor.
      * eexists. split; [exact Ht |]. apply Turn_detect. exact Hi.
      * eexists. split; [exact Ht |]. apply Turn_hook; [assumption | constructor].
    + apply call_detect_trace in Hd. apply instantiate_trace in Hn.
      destruct Hd as [(e' & He' & _) | [(_ & He' & _) | (h & Hh & Ht)]]; try discriminate.
      eexists. split; [rewrite Hn, Ht, <- app_assoc; reflexivity |].
      apply Turn_init; [assumption | constructor].
Qed.

(** A run of the loop records one turn for each container it comes to, in the
    order of the list, and stops short of the end only by returning or
    raising from a turn. *)
Lemma for_containers_turns cs st r st' :
  for_containers E cs item args kwargs st = (r, st') ->
  exists done rest turns,
    cs = (done ++ rest)%list /\
    Forall2 (Turn item args kwargs) done turns /\
    trace st' = (trace st ++ concat turns)%list /\
    (forall m, r = Raise (ContainerError m None) -> rest = []).
Proof.
  revert st. induction cs as [| k cs IH]; intros st; simpl.
  - intros [= <- <-]. exists [], [], []. simpl. rewrite app_nil_r. auto.
  - unfold bind at 1.
    destruct (attempt E k item args kwargs st) as [[[c|]|e] st1] eqn:Ha.
    + intros [= <- <-]. apply attempt_turn in Ha. destruct Ha as (evs & Ht & Hturn).
      exists [k], cs, [evs]. simpl. rewrite app_nil_r.
      repeat split; try assumption; [repeat constructor; assumption | discriminate].
    + intros H. apply IH in H. destruct H as (done & rest & turns & -> & Hf & Ht & Hr).
      apply attempt_turn in Ha. destruct Ha as (evs & Ht1 & Hturn).
      exists (k :: done), rest, (evs :: turns). simpl.
      repeat split; try assumption; [constructor; assumption |].
      rewrite Ht, Ht1, <- app_assoc. reflexivity.
    + intros [= <- <-]. pose proof Ha as Hinv. apply attempt_inv in Hinv.
      apply attempt_turn in Ha. destruct Ha as (evs & Ht & Hturn).
      exists [k], cs, [evs]. simpl. rewrite app_nil_r.
      repeat split; try assumption; [repeat constructor; assumption |].
      intros m Hm. exfalso.
      destruct Hinv as [[c [Hr _]] | [[Hr _] | [e0 [Hr _]]]]; try discriminate.
      injection Hm as ->. injection Hr as Hr. symmetry in Hr.
      exact (escaping_not_bare E item e0 m Hr).
Qed.
End TurnShape.

(** ** Normalisation *)

Lemma coerce_no_str (entry : value) :
  isinstance_str (if isinstance_str entry then Path entry else entry) = false.
Proof. destruct entry; reflexivity. Qed.

Lemma normalize_no_str (item : value) : no_str (normalize item) = true.
Proof.
  destruct item as [s | p | h | l]; try reflexivity.
  simpl. apply forallb_forall. intros x Hx. apply in_map_iff in Hx.
  destruct Hx as [entry [<- _]]. rewrite coerce_no_str. reflexivity.
Qed.

Lemma normalize_fixed (item : value) : no_str item = true -> normalize item = item.
Proof.
  destruct item as [s | p | h | l]; try reflexivity; try discriminate.
  simpl. intros H. f_equal.
  induction l as [| x l IH]; [reflexivity |].
  simpl in H. apply andb_true_iff in H. destruct H as [Hx Hl].
  simpl. rewrite (IH Hl). destruct x; try reflexivity. discriminate.
Qed.

(** X2.  Normalisation removes every [str] from the item itself and from the
    entries of a list item, and changes nothing else: the items it leaves as
    they are are exactly those that have no such [str].  Entries of entries
    are not looked at. *)
Theorem normalize_fixed_points (item : value) :
  no_str (normalize item) = true /\
  (normalize item = item <-> no_str item = true).
Proof.
  split; [apply normalize_no_str |]. split.
  - intros H. rewrite <- H. apply normalize_no_str.
  - apply normalize_fixed.
Qed.

(** X1.  Normalising twice is normalising once, so [open] behaves on an item
    as on its normalised form: a string and the path made from it are opened
    alike, with the same result, the same effect on the world and the same
    calls. *)
Theorem open_normalize_idempotent {World : Type} (E : environment World)
        item args kwargs (st : state World) :
  normalize (normalize item) = normalize item /\
  open E (normalize item) args kwargs st = open E item args kwargs st /\
  (forall s, open E (VStr s) args kwargs st = open E (VPath s) args kwargs st).
Proof.
  assert (Hid : forall v, normalize (normalize v) = normalize v)
    by (intros v; apply normalize_fixed, normalize_no_str).
  split; [apply Hid |]. split.
  - unfold open. rewrite Hid. reflexivity.
  - intros s. reflexivity.
Qed.

(** ** The order of the calls *)

Lemma probed_app (a b : list event) : probed (a ++ b) = (probed a ++ probed b)%list.
Proof.
  induction a as [| ev a IH]; [reflexivity |].
  destruct ev; simpl; rewrite IH; reflexivity.
Qed.

Lemma warned_classes_app (a b : list event) :
  warned_classes (a ++ b) = (warned_classes a ++ warned_classes b)%list.
Proof.
  induction a as [| ev a IH]; [reflexivity |].
  destruct ev; simpl; rewrite IH; reflexivity.
Qed.

Lemma Turn_probed item args kwargs k evs :
  Turn item args kwargs k evs -> probed evs = [k].
Proof.
  intros [tail Ht | Hi | h tail Hh Ht | h tail Hh Ht];
    try destruct Hh; try destruct Ht; reflexivity.
Qed.

Lemma Turn_warned item args kwargs k evs :
  Turn item args kwargs k evs ->
  warned_classes evs = [] \/ warned_classes evs = [k].
Proof.
  intros [tail Ht | Hi | h tail Hh Ht | h tail Hh Ht];
    try destruct Hh; try destruct Ht; simpl; auto.
Qed.

Lemma Turn_warning_import item args kwargs k evs m c e :
  Turn item args kwargs k evs ->
  In (Log_warning m c e) evs ->
  m = "Failed to import %s" /\ c = k /\ isinstance_ImportError e = true.
Proof.
  intros [tail Ht | Hi | h tail Hh Ht | h tail Hh Ht] Hin;
    try destruct Hh; try destruct Ht; simpl in Hin;
    repeat (destruct Hin as [Hin | Hin]; try discriminate; try contradiction);
    injection Hin as <- <- <-; auto.
Qed.

Lemma Turn_fh item args kwargs k evs c rep o :
  Turn item args kwargs k evs ->
  In (Call_detect_fh c rep o) evs ->
  Representative item rep /\ hasattr_read rep = true /\ o = item.
Proof.
  intros [tail Ht | Hi | h tail Hh Ht | h tail Hh Ht] Hin;
    try destruct Hh; try destruct Ht; simpl in Hin;
    repeat (destruct Hin as [Hin | Hin]; try discriminate; try contradiction);
    injection Hin as <- <- <-; auto.
Qed.

Lemma Turn_path item args kwargs k evs c rep o :
  Turn item args kwargs k evs ->
  In (Call_detect_path c rep o) evs ->
  Representative item rep /\ hasattr_read rep = false /\ o = item.
Proof.
  intros [tail Ht | Hi | h tail Hh Ht | h tail Hh Ht] Hin;
    try destruct Hh; try destruct Ht; simpl in Hin;
    repeat (destruct Hin as [Hin | Hin]; try discriminate; try contradiction);
    injection Hin as <- <- <-; auto.
Qed.

Lemma turns_In item args kwargs done turns ev :
  Forall2 (Turn item args kwargs) done turns ->
  In ev (concat turns) ->
  exists k evs, In k done /\ Turn item args kwargs k evs /\ In ev evs.
Proof.
  intros H. induction H as [| k evs done turns Hk _ IH]; simpl; [contradiction |].
  intros Hin. apply in_app_or in Hin. destruct Hin as [Hin | Hin].
  - exists k, evs. auto.
  - destruct (IH Hin) as (k' & evs' & Hd & Ht & He).
    exists k', evs'. auto.
Qed.

Lemma turns_probed item args kwargs done turns :
  Forall2 (Turn item args kwargs) done turns -> probed (concat turns) = done.
Proof.
  intros H. induction H as [| k evs done turns Hk _ IH]; [reflexivity |].
  simpl. rewrite probed_app, (Turn_probed _ _ _ _ _ Hk), IH. reflexivity.
Qed.

Lemma turns_warned item args kwargs done turns :
  Forall2 (Turn item args kwargs) done turns ->
  NoDup done ->
  NoDup (warned_classes (concat turns)) /\ incl (warned_classes (concat turns)) done.
Proof.
  intros H. induction H as [| k evs done turns Hk _ IH]; simpl.
  - intros _. split; [constructor | intros x []].
  - intros Hnd. inversion Hnd as [| ? ? Hk' Hnd']; subst.
    destruct (IH Hnd') as [Hn Hi]. rewrite warned_classes_app.
    destruct (Turn_warned _ _ _ _ _ Hk) as [-> | ->]; simpl.
    + split; [assumption | intros x Hx; right; apply Hi; exact Hx].
    + split.
      * constructor; [intros Hin; apply Hk', Hi; exact Hin | assumption].
      * intros x [-> | Hx]; [left; reflexivity | right; apply Hi; exact Hx].
Qed.

Lemma NoDup_prefix (done rest : list pyclass) : NoDup (done ++ rest) -> NoDup done.
Proof. apply NoDup_app_remove_r. Qed.

Lemma Representative_unique item rep1 rep2 :
  Representative item rep1 -> Representative item rep2 -> rep1 = rep2.
Proof.
  intros [[l1 ->] | [H1 ->]] [[l2 H2] | [H2 H3]].
  - injection H2 as ->. reflexivity.
  - discriminate.
  - rewrite H2 in H1. discriminate.
  - symmetry. exact H3.
Qed.

Lemma Representative_no_str item rep :
  Representative (normalize item) rep -> isinstance_str rep = false.
Proof.
  pose proof (normalize_no_str item) as Hn.
  intros [[l Hl] | [_ ->]].
  - rewrite Hl in Hn. simpl in Hn. apply andb_true_iff in Hn.
    destruct Hn as [Hn _]. destruct rep; try reflexivity. discriminate.
  - destruct (normalize item); try reflexivity. discriminate.
Qed.

Section RunFacts.
Context {World : Type} (E : environment World).
Variables (item : value) (args : list value) (kwargs : list (string * value)).


(** X4.  [open] looks up the [detect] of the containers in the order of the
    list, each at most once and without passing over any: the classes looked
    up form an initial part of the list, and the whole list when [open]
    raises the ["Failed to detect container"] error. *)
Theorem open_probes_in_order st r st' :
  open E item args kwargs st = (r, st') ->
  exists evs rest,
    trace st' = (trace st ++ evs)%list /\
    containers = (probed evs ++ rest)%list /\
    (forall m, r = Raise (ContainerError m None) -> probed evs = containers).
Proof.
  intros H. apply for_containers_turns in H.
  destruct H as (done & rest & turns & Hcs & Hf & Ht & Hr).
  exists (concat turns), rest. rewrite (turns_probed _ _ _ _ _ Hf).
  repeat split; try assumption.
  intros m Hm. rewrite Hcs, (Hr m Hm), app_nil_r. reflexivity.
Qed.

(** X5.  In one run of [open] every call of [detect_fh] and [detect_path]
    gets the same representative, which is never a [str], and the normalised
    item as original: [detect_fh] is called only with a representative that
    has [read], [detect_path] only with one that has not, so a run never
    calls both. *)
Theorem open_one_representative st r st' :
  open E item args kwargs st = (r, st') ->
  exists evs,
    trace st' = (trace st ++ evs)%list /\
    (forall c rep o,
        In (Call_detect_fh c rep o) evs ->
        Representative (normalize item) rep /\ hasattr_read rep = true /\
        o = normalize item) /\
    (forall c rep o,
        In (Call_detect_path c rep o) evs ->
        Representative (normalize item) rep /\ hasattr_read rep = false /\
        isinstance_str rep = false /\ o = normalize item) /\
    (forall c1 rep1 o1 c2 rep2 o2,
        In (Call_detect_fh c1 rep1 o1) evs ->
        In (Call_detect_path c2 rep2 o2) evs -> False) /\
    (forall rep1 rep2,
        Representative (normalize item) rep1 ->
        Representative (normalize item) rep2 -> rep1 = rep2).
Proof.
  intros H. apply for_containers_turns in H.
  destruct H as (done & rest & turns & Hcs & Hf & Ht & Hr).
  assert (Hfh : forall c rep o,
             In (Call_detect_fh c rep o) (concat turns) ->
             Representative (normalize item) rep /\ hasattr_read rep = true /\
             o = normalize item).
  { intros c rep o Hin. destruct (turns_In _ _ _ _ _ _ Hf Hin) as (k & evs & _ & Hk & He).
    exact (Turn_fh _ _ _ _ _ _ _ _ Hk He). }
  assert (Hpath : forall c rep o,
             In (Call_detect_path c rep o) (concat turns) ->
             Representative (normalize item) rep /\ hasattr_read rep = false /\
             o = normalize item).
  { intros c rep o Hin. destruct (turns_In _ _ _ _ _ _ Hf Hin) as (k & evs & _ & Hk & He).
    exact (Turn_path _ _ _ _ _ _ _ _ Hk He). }
  exists (concat turns). split; [assumption |]. repeat split.
  - apply (Hfh c rep o H).
  - apply (Hfh c rep o H).
  - apply (Hfh c rep o H).
  - apply (Hpath c rep o H).
  - apply (Hpath c rep o H).
  - apply (Representative_no_str item). apply (Hpath c rep o H).
  - apply (Hpath c rep o H).
  - intros c1 rep1 o1 c2 rep2 o2 H1 H2.
    destruct (Hfh _ _ _ H1) as (R1 & T1 & _). destruct (Hpath _ _ _ H2) as (R2 & T2 & _).
    rewrite (Representative_unique _ _ _ R1 R2) in T1. congruence.
  - apply Representative_unique.
Qed.

(** X6.  [open] logs a warning only for an [ImportError], with the message
    ["Failed to import %s"], only for a container it has looked up, and at
    most once for each container. *)
Theorem open_warns_on_import_only st r st' :
  open E item args kwargs st = (r, st') ->
  exists evs,
    trace st' = (trace st ++ evs)%list /\
    (forall m c e,
        In (Log_warning m c e) evs ->
        m = "Failed to import %s" /\ isinstance_ImportError e = true /\
        In c (probed evs)) /\
    NoDup (warned_classes evs).
Proof.
  intros H. apply for_containers_turns in H.
  destruct H as (done & rest & turns & Hcs & Hf & Ht & Hr).
  exists (concat turns). split; [assumption |]. split.
  - intros m c e Hin.
    destruct (turns_In _ _ _ _ _ _ Hf Hin) as (k & evs & Hd & Hk & He).
    destruct (Turn_warning_import _ _ _ _ _ _ _ _ Hk He) as (-> & -> & Hi).
    rewrite (turns_probed _ _ _ _ _ Hf). auto.
  - apply (turns_warned _ _ _ _ _ Hf).
    apply NoDup_prefix with rest. rewrite <- Hcs. apply NoDup_containers.
Qed.

(** X8.  Whatever [open] raises is not an [ImportError], and if it is an
    [Exception] it is a [ContainerError]: no [ImportError], [IndexError] or
    [NotImplementedError] of a container comes out of [open] as it is. *)
Theorem open_raises_container_error st e st' :
  open E item args kwargs st = (Raise e, st') ->
  isinstance_ImportError e = false /\
  (isinstance_Exception e = true -> exists m cause, e = ContainerError m cause).
Proof.
  intros H. unfold open in H. apply for_containers_inv in H.
  destruct H as [(pre & k & post & st1 & c & _ & _ & _ & Hr)
                | [(pre & k & post & st1 & e0 & _ & _ & Hf & Hr) | [_ Hr]]];
    try discriminate.
  - injection Hr as ->. apply Fails_not_import in Hf. unfold escaping.
    destruct (isinstance_Exception e0) eqn:He0.
    + split; [reflexivity | eauto].
    + split; [assumption | intros He; rewrite He in He0; discriminate].
  - injection Hr as ->. split; [reflexivity | eauto].
Qed.
End RunFacts.

(** ** The raw container as catch-all *)

Lemma Chain_In {World : Type} (R : pyclass -> state World -> state World -> Prop)
      cs st st' k :
  Chain R cs st st' -> In k cs -> exists s s', R k s s'.
Proof.
  intros H. induction H as [st | c cs st st1 st2 Hc _ IH]; [intros [] |].
  intros [-> | Hin]; [eauto | exact (IH Hin)].
Qed.

Section RawCatchAll.
Context {World : Type} (E : environment World).
Hypothesis raw_imports :
  forall w, exists w', getattr_detect E RawContainer w = (Ok tt, w').
Hypothesis raw_detect_fh :
  forall fh original w, exists w',
      sub_detect_fh E RawContainer fh original w = (Ok true, w').
Hypothesis raw_detect_path :
  forall path original w, exists w',
      sub_detect_path E RawContainer path original w = (Ok true, w').
Hypothesis raw_new :
  forall item args kwargs w e w',
    new E RawContainer item args kwargs w = (Raise e, w') ->
    isinstance_ImportError e = false.

Lemma raw_call_detect item st r st' :
  call_detect E RawContainer item st = (r, st') ->
  r = Ok true \/ r = Raise (IndexError "list index out of range").
Proof.
  unfold call_detect, bind, emit, lift. simpl.
  destruct (raw_imports (world st)) as [w Hw]. rewrite Hw.
  assert (Hfh : forall rep s,
             fst (Container.detect_fh E RawContainer rep item s) = Ok true).
  { intros rep s. unfold Container.detect_fh, bind, emit, lift. simpl.
    destruct (raw_detect_fh rep item (world s)) as [w' ->]. reflexivity. }
  assert (Hpath : forall rep s,
             fst (Container.detect_path E RawContainer rep item s) = Ok true).
  { intros rep s. unfold Container.detect_path, bind, emit, lift. simpl.
    destruct (raw_detect_path rep item (world s)) as [w' ->]. reflexivity. }
  assert (Hdisp : forall rep s,
             fst ((if hasattr_read rep
                   then Container.detect_fh E RawContainer rep item
                   else Container.detect_path E RawContainer rep item) s) = Ok true)
    by (intros rep s; destruct (hasattr_read rep); [apply Hfh | apply Hpath]).
  unfold Container.detect. unfold bind at 1. unfold emit. unfold bind.
  revert Hfh Hpath Hdisp.
  destruct item as [s | p | h | [| x l]]; simpl; intros Hfh Hpath Hdisp H.
  - left. change r with (fst (r, st')). rewrite <- H. apply Hpath.
  - left. change r with (fst (r, st')). rewrite <- H. apply Hpath.
  - left. change r with (fst (r, st')). rewrite <- H. apply Hfh.
  - right. injection H as <- _. reflexivity.
  - left. change r with (fst (r, st')). rewrite <- H. apply Hdisp.
Qed.

Lemma raw_never_declines item args kwargs st st' :
  ~ Declines E item args kwargs RawContainer st st'.
Proof.
  intros [[Hd | e st1 Hd He _] | e st1 st2 _ Hn He _].
  - apply raw_call_detect in Hd. destruct Hd; discriminate.
  - apply raw_call_detect in Hd. destruct Hd as [Hd | Hd]; [discriminate |].
    injection Hd as ->. discriminate.
  - revert Hn. unfold instantiate, bind, emit, lift. simpl.
    destruct (new E RawContainer item args kwargs (world st1)) as [r w] eqn:Hnew.
    intros [= -> _]. rewrite (raw_new _ _ _ _ _ _ Hnew) in He. discriminate.
Qed.

(** X7.  When the raw container always succeeds (its module imports, its
    [detect_fh] and [detect_path] always return true and its constructor never
    raises an [ImportError]), [open] never raises the ["Failed to detect
    container"] error, whatever the item and the other containers do. *)
Theorem raw_catch_all item args kwargs st m st' :
  open E item args kwargs st <> (Raise (ContainerError m None), st').
Proof.
  intros H. unfold open in H. apply for_containers_inv in H.
  destruct H as [(pre & k & post & st1 & c & _ & _ & _ & Hr)
                | [(pre & k & post & st1 & e0 & _ & _ & _ & Hr) | [Hc _]]];
    try discriminate.
  - injection Hr as Hr. symmetry in Hr.
    exact (escaping_not_bare E (normalize item) e0 m Hr).
  - destruct (Chain_In _ _ _ _ RawContainer Hc) as (s & s' & Hd).
    + unfold containers. simpl. tauto.
    + exact (raw_never_declines _ _ _ _ _ Hd).
Qed.
End RawCatchAll.

(** ** The base class *)

(** X9.  [detect] of the base class never returns: on the empty list it
    raises the [IndexError] of [item[0]], on every other item it raises
    [NotImplementedError] from the one hook it calls; the world is left as it
    was. *)
Theorem base_detect_never_returns {World : Type} (E : environment World)
        (item : value) (st : state World) :
  exists e st',
    Container.detect E BaseContainer item st = (Raise e, st') /\
    world st' = world st /\
    (item = VList [] /\ e = IndexError "list index out of range" \/
     item <> VList [] /\ e = NotImplementedError).
Proof.
  unfold Container.detect, Container.detect_fh, Container.detect_path,
    bind, emit, raise, ret.
  destruct item as [s | p | h | [| x l]]; simpl.
  - eexists _, _. split; [reflexivity |]. split; [reflexivity |]. right. split; [discriminate | reflexivity].
  - eexists _, _. split; [reflexivity |]. split; [reflexivity |]. right. split; [discriminate | reflexivity].
  - eexists _, _. split; [reflexivity |]. split; [reflexivity |]. right. split; [discriminate | reflexivity].
  - eexists _, _. split; [reflexivity |]. split; [reflexivity |]. left. auto.
  - destruct (hasattr_read x);
      (eexists _, _; split; [reflexivity |]; split; [reflexivity |];
       right; split; [discriminate | reflexivity]).
Qed.

(** ** What open returns *)

(** X10.  [open] returns an instance only from a container whose [detect]
    returned true in this run, after every container before it declined, and
    the instance is what the constructor of that container returned. *)
Theorem open_returns_only_matches {World : Type} (E : environment World)
        item args kwargs (st : state World) c st' :
  open E item args kwargs st = (Ok c, st') ->
  exists pre k post st1 st2,
    containers = (pre ++ k :: post)%list /\
    Chain (Declines E (normalize item) args kwargs) pre st st1 /\
    call_detect E k (normalize item) st1 = (Ok true, st2) /\
    instantiate E k (normalize item) args kwargs st2 = (Ok c, st').
Proof.
  intros H. unfold open in H. apply for_containers_inv in H.
  destruct H as [(pre & k & post & st1 & c' & Hcs & Hpre & Ho & Hr)
                | [(pre & k & post & st1 & e0 & _ & _ & _ & Hr) | [_ Hr]]];
    try discriminate.
  injection Hr as <-. destruct Ho as [st2 Hd Hn].
  exists pre, k, post, st1, st2. auto.
Qed.

(** ** Sample runs of the further properties *)

(** A list without strings is left as it is. *)
Lemma normalize_fixed_points_witness :
  normalize (VList [VPath "a"; VStream 1; VList [VStr "nested"]]) =
  VList [VPath "a"; VStream 1; VList [VStr "nested"]].
Proof.
  apply (proj2 (proj2 (normalize_fixed_points
                         (VList [VPath "a"; VStream 1; VList [VStr "nested"]])))).
  reflexivity.
Defined.


(** [open(stream)] when nothing matches: all eight are looked up. *)
Lemma open_probes_in_order_witness :
  exists evs rest,
    trace (snd (open env_nothing_matches (VStream 1) [] [] start)) =
      (trace start ++ evs)%list /\
    containers = (probed evs ++ rest)%list /\
    (forall m, fst (open env_nothing_matches (VStream 1) [] [] start) =
               Raise (ContainerError m None) -> probed evs = containers).
Proof.
  apply (open_probes_in_order env_nothing_matches (VStream 1) [] [] start
           (fst (open env_nothing_matches (VStream 1) [] [] start))
           (snd (open env_nothing_matches (VStream 1) [] [] start))).
  reflexivity.
Defined.

(** [open(["disk.E01", stream])]: every hook gets the path made from the first
    entry. *)
Lemma open_one_representative_witness :
  exists evs,
    trace (snd (open env_nothing_matches (VList [VStr "disk.E01"; VStream 3]) [] [] start)) =
      (trace start ++ evs)%list /\
    (forall c rep o,
        In (Call_detect_fh c rep o) evs ->
        Representative (normalize (VList [VStr "disk.E01"; VStream 3])) rep /\
        hasattr_read rep = true /\
        o = normalize (VList [VStr "disk.E01"; VStream 3])) /\
    (forall c rep o,
        In (Call_detect_path c rep o) evs ->
        Representative (normalize (VList [VStr "disk.E01"; VStream 3])) rep /\
        hasattr_read rep = false /\
        isinstance_str rep = false /\
        o = normalize (VList [VStr "disk.E01"; VStream 3])) /\
    (forall c1 rep1 o1 c2 rep2 o2,
        In (Call_detect_fh c1 rep1 o1) evs ->
        In (Call_detect_path c2 rep2 o2) evs -> False) /\
    (forall rep1 rep2,
        Representative (normalize (VList [VStr "disk.E01"; VStream 3])) rep1 ->
        Representative (normalize (VList [VStr "disk.E01"; VStream 3])) rep2 ->
        rep1 = rep2).
Proof.
  apply (open_one_representative env_nothing_matches
           (VList [VStr "disk.E01"; VStream 3]) [] [] start
           (fst (open env_nothing_matches (VList [VStr "disk.E01"; VStream 3]) [] [] start))
           (snd (open env_nothing_matches (VList [VStr "disk.E01"; VStream 3]) [] [] start))).
  reflexivity.
Defined.

(** [open(stream)] when no module imports: eight warnings, one for each. *)
Lemma open_warns_on_import_only_witness :
  exists evs,
    trace (snd (open env_nothing_imports (VStream 1) [] [] start)) =
      (trace start ++ evs)%list /\
    (forall m c e,
        In (Log_warning m c e) evs ->
        m = "Failed to import %s" /\ isinstance_ImportError e = true /\
        In c (probed evs)) /\
    NoDup (warned_classes evs).
Proof.
  apply (open_warns_on_import_only env_nothing_imports (VStream 1) [] [] start
           (fst (open env_nothing_imports (VStream 1) [] [] start))
           (snd (open env_nothing_imports (VStream 1) [] [] start))).
  reflexivity.
Defined.

(** [open([])]: the [IndexError] comes out wrapped. *)
Lemma open_raises_container_error_witness :
  isinstance_ImportError
    (ContainerError "Failed to open container []"
                    (Some (IndexError "list index out of range"))) = false /\
  (isinstance_Exception
     (ContainerError "Failed to open container []"
                     (Some (IndexError "list index out of range"))) = true ->
   exists m cause,
     ContainerError "Failed to open container []"
                    (Some (IndexError "list index out of range")) =
     ContainerError m cause).
Proof.
  apply (open_raises_container_error env_nothing_matches (VList []) [] [] start
           (ContainerError "Failed to open container []"
                           (Some (IndexError "list index out of range")))
           (snd (open env_nothing_matches (VList []) [] [] start))).
  reflexivity.
Defined.

(** With the raw container of [env_vhdx], which always succeeds. *)
Lemma raw_catch_all_witness :
  open env_vhdx (VStream 1) [] [] start <>
  (Raise (ContainerError "Failed to detect container for <_io.BytesIO object>" None),
   snd (open env_vhdx (VStream 1) [] [] start)).
Proof.
  apply (raw_catch_all env_vhdx).
  - intros w. exists (S w). reflexivity.
  - intros fh0 original w. exists (S w). reflexivity.
  - intros path original w. exists (S w). reflexivity.
  - intros item args kwargs w e w' H. discriminate H.
Defined.

(** [open("disk.vhdx")] with the EWF module missing returns from VHDX. *)
Lemma open_returns_only_matches_witness :
  exists pre k post st1 st2,
    containers = (pre ++ k :: post)%list /\
    Chain (Declines env_vhdx (normalize (VStr "disk.vhdx")) [] []) pre start st1 /\
    call_detect env_vhdx k (normalize (VStr "disk.vhdx")) st1 = (Ok true, st2) /\
    instantiate env_vhdx k (normalize (VStr "disk.vhdx")) [] [] st2 =
      (Ok {| cls := VhdxContainer; fh := VPath "disk.vhdx"; size := 512; vs := None |},
       snd (open env_vhdx (VStr "disk.vhdx") [] [] start)).
Proof.
  apply (open_returns_only_matches env_vhdx (VStr "disk.vhdx") [] [] start).
  reflexivity.
Defined.

(** ** Container.__repr__ *)

Lemma append_length (a b : string) :
  String.length (a ++ b) = String.length a + String.length b.
Proof. induction a as [| c a IH]; simpl; [reflexivity | rewrite IH; reflexivity]. Qed.

Lemma append_cancel_r (a b t : string) : a ++ t = b ++ t -> a = b.
Proof.
  revert b. induction a as [| c a IH]; intros [| c' b] H; simpl in H.
  - reflexivity.
  - apply (f_equal String.length) in H. simpl in H. rewrite append_length in H.
    exfalso. revert H. generalize (String.length t), (String.length b).
    intros n m Hn. apply (f_equal (fun k => k - n)) in Hn.
    rewrite Nat.sub_diag in Hn.
    replace (S (m + n) - n) with (S m) in Hn; [discriminate |].
    rewrite <- Nat.add_succ_l, Nat.add_sub. reflexivity.
  - apply (f_equal String.length) in H. simpl in H. rewrite append_length in H.
    exfalso. revert H. generalize (String.length t), (String.length a).
    intros n m Hn. apply (f_equal (fun k => k - n)) in Hn.
    rewrite Nat.sub_diag in Hn.
    replace (S (m + n) - n) with (S m) in Hn; [discriminate |].
    rewrite <- Nat.add_succ_l, Nat.add_sub. reflexivity.
  - injection H as -> H. rewrite (IH b H). reflexivity.
Qed.

Lemma append_cancel_l (p a b : string) : p ++ a = p ++ b -> a = b.
Proof.
  induction p as [| c p IH]; simpl; [trivial |].
  intros H. injection H as H. exact (IH H).
Qed.

Lemma str_int_inj (z1 z2 : Z) : Container.str_int z1 = Container.str_int z2 -> z1 = z2.
Proof.
  unfold Container.str_int. intros H.
  apply (f_equal DecimalString.NilEmpty.int_of_string) in H.
  rewrite !DecimalString.NilEmpty.isi in H. injection H as H.
  apply DecimalZ.to_int_inj. exact H.
Qed.

(** X11.  The [repr] of an instance tells its class and its size: two
    instances with the same volume system and the same [repr] have the same
    class and the same size. *)
Theorem repr_tells_class_and_size (str_vs : nat -> string) (a b : instance) :
  vs a = vs b ->
  Container.__repr__ str_vs a = Container.__repr__ str_vs b ->
  cls a = cls b /\ size a = size b.
Proof.
  destruct a as [ca fa sa va], b as [cb fb sb vb]. simpl. intros <-.
  unfold Container.__repr__. simpl.
  set (tail := " vs=" ++ match va with None => "None" | Some v => str_vs v end ++ ">").
  intros H.
  assert (Hcls : ca = cb) by (destruct ca, cb; try reflexivity; discriminate H).
  subst cb. split; [reflexivity |].
  apply (append_cancel_l "<"), (append_cancel_l (Container.__name__ ca)),
    (append_cancel_l " size="), append_cancel_r in H.
  apply str_int_inj. exact H.
Qed.

(** Two VHDX instances of the same size. *)
Lemma repr_tells_class_and_size_witness :
  cls (Container.__init__ VhdxContainer (VPath "a.vhdx") 4096 None) =
  cls (Container.__init__ VhdxContainer (VStream 2) 4096 None) /\
  size (Container.__init__ VhdxContainer (VPath "a.vhdx") 4096 None) =
  size (Container.__init__ VhdxContainer (VStream 2) 4096 None).
Proof.
  apply (repr_tells_class_and_size (fun _ => "<VolumeSystem>")
           (Container.__init__ VhdxContainer (VPath "a.vhdx") 4096 None)
           (Container.__init__ VhdxContainer (VStream 2) 4096 None)).
  - reflexivity.
  - reflexivity.
Defined.
